(** * Gorilla Tag Fun: the question engine and the progress model

    A shallow embedding of [MathEngine] and [ProgressManager]
    (src/unnamed/part_008) and of the sanitizer of src/src/utils/validators.js.

    Modelling conventions:
    - JS numbers used as counters, operands and scores are integers ([Z]);
      the accuracy percentage, the one quotient of the code, is a rational
      ([Q]).  [NaN] results of [parseInt] are [None].
    - [Math.random] and [Date.now] are explicit arguments: a random index
      [k] stands for [Math.floor(Math.random() * array.length)], sampled
      operands are passed in, [now] is the current time.
    - An exception escaping a method is [None] (or, where the method has
      already mutated [this] before throwing, the state at the throw is
      kept).
    - [JSON.parse] and [JSON.stringify] are section variables: the results
      hold for every parser and printer. *)

From Stdlib Require Import ZArith QArith String Ascii List Bool Lia.
From Stdlib Require Import Numbers.DecimalString.
From Stdlib Require Numbers.DecimalPos.
Import ListNotations.

Open Scope string_scope.
Open Scope Z_scope.

(** ** JS string helpers *)

(** [Number.prototype.toString()] on an integer. *)
Definition js_number_toString (n : Z) : string :=
  NilEmpty.string_of_int (Z.to_int n).

(** [String.prototype.replace(pattern, replacement)] with a string
    [pattern]: only the first occurrence is replaced.  The replacements
    used by the code are printed numbers, which contain no [$] pattern. *)
Fixpoint replace_first (pat rep s : string) : string :=
  if String.prefix pat s
  then rep ++ String.substring (String.length pat) (String.length s) s
  else match s with
       | EmptyString => EmptyString
       | String c s' => String c (replace_first pat rep s')
       end.

(** The white-space characters of [String.prototype.trim] in the Latin-1
    range: TAB, LF, VT, FF, CR, SPACE and NBSP. *)
Definition is_js_space (c : ascii) : bool :=
  let n := nat_of_ascii c in
  ((9 <=? n)%nat && (n <=? 13)%nat) || (n =? 32)%nat || (n =? 160)%nat.

Fixpoint trim_start (s : string) : string :=
  match s with
  | EmptyString => EmptyString
  | String c s' => if is_js_space c then trim_start s' else s
  end.

Definition trim_end (s : string) : string :=
  string_of_list_ascii
    (rev (list_ascii_of_string (trim_start
      (string_of_list_ascii (rev (list_ascii_of_string s)))))).

(** [String.prototype.trim()]. *)
Definition js_trim (s : string) : string := trim_end (trim_start s).

Definition is_digit (c : ascii) : bool :=
  let n := nat_of_ascii c in (48 <=? n)%nat && (n <=? 57)%nat.

Definition is_minus (c : ascii) : bool := Ascii.eqb c "-"%char.

(** [s.replace(/[^0-9-]/g, '')] (the same class as [/[^\d-]/g]). *)
Fixpoint keep_digits_and_minus (s : string) : string :=
  match s with
  | EmptyString => EmptyString
  | String c s' =>
      if is_digit c || is_minus c
      then String c (keep_digits_and_minus s')
      else keep_digits_and_minus s'
  end.

(** [s.replace(/-/g, '')]. *)
Fixpoint remove_minus (s : string) : string :=
  match s with
  | EmptyString => EmptyString
  | String c s' =>
      if is_minus c then remove_minus s' else String c (remove_minus s')
  end.

Definition digit_value (c : ascii) : Z := Z.of_nat (nat_of_ascii c) - 48.

(** The longest prefix of decimal digits, with its value accumulated
    from the left. *)
Fixpoint parse_digits (acc : Z) (seen : bool) (s : string) : option Z :=
  match s with
  | String c s' =>
      if is_digit c then parse_digits (acc * 10 + digit_value c) true s'
      else if seen then Some acc else None
  | EmptyString => if seen then Some acc else None
  end.

(** [parseInt(s, 10)]: leading white space, an optional sign, then the
    longest run of digits; no digit gives [NaN], here [None]. *)
Definition parseInt (s : string) : option Z :=
  match trim_start s with
  | String c s' =>
      if is_minus c then option_map Z.opp (parse_digits 0 false s')
      else if Ascii.eqb c "+"%char then parse_digits 0 false s'
      else parse_digits 0 false (String c s')
  | EmptyString => None
  end.

(** [sanitizeInput] of src/src/utils/validators.js. *)
Definition validators_sanitizeInput (input : option string) : string :=
  match input with
  | None => ""                                   (* null / undefined *)
  | Some raw =>
      let cleaned := keep_digits_and_minus (js_trim raw) in
      let cleaned :=
        match String.index 0 "-" cleaned with
        | Some i => if (0 <? i)%nat then remove_minus cleaned else cleaned
        | None => cleaned
        end in
      (* [cleaned.split('-').length > 2]: at least two minus signs *)
      if (2 <=? String.length cleaned - String.length (remove_minus cleaned))%nat
      then "-" ++ remove_minus cleaned
      else cleaned
  end.

(** [Number(s)] on a trimmed string over the characters [0-9] and [-],
    the only strings [validators_sanitizeInput] yields: the empty string is
    [0], an optional [-] followed by at least one digit is that integer,
    anything else is [NaN] ([None]). *)
Definition js_Number_of_digits (s : string) : option Z :=
  match s with
  | EmptyString => Some 0
  | String c s' =>
      let body := if is_minus c then s' else s in
      if (0 <? String.length body)%nat && forallb is_digit (list_ascii_of_string body)
      then option_map (fun n => if is_minus c then - n else n)
             (parse_digits 0 false body)
      else None
  end.

(** [isValidNumber] of src/src/utils/validators.js, on a string. *)
Definition validators_isValidNumber (input : string) : bool :=
  if String.eqb input "" then false
  else let str := js_trim input in
       if String.eqb str "" then false
       else match js_Number_of_digits str with Some _ => true | None => false end.

(** The object returned by [validateAnswer] of validators.js. *)
Record validators_result := mkValidatorsResult {
  vr_valid : bool;
  vr_correct : bool;
  vr_close : option bool;
  vr_value : option Z
}.

(** [validateAnswer(input, expected)] of src/src/utils/validators.js. *)
Definition validators_validateAnswer (input : option string) (expected : Z)
    : validators_result :=
  let cleaned := validators_sanitizeInput input in
  if negb (validators_isValidNumber cleaned)
  then mkValidatorsResult false false None None
  else match parseInt cleaned with
       | Some u =>
           let isCorrect := Z.eqb u expected in
           let isClose := Z.abs (u - expected) <=? 2 in
           mkValidatorsResult true isCorrect (Some (negb isCorrect && isClose)) (Some u)
       | None =>
           (* [parseInt] gave [NaN]: not equal and not close *)
           mkValidatorsResult true false (Some false) None
       end.

(** No opening brace in [s]: a [{a}] or [{b}] placeholder cannot start
    inside it. *)
Fixpoint has_no_brace (s : string) : bool :=
  match s with
  | EmptyString => true
  | String c s' => negb (Ascii.eqb c "{"%char) && has_no_brace s'
  end.

(** ** The question engine (class [MathEngine]) *)
Module MathEngine.

(** A question template of the question bank. *)
Record template := mkTemplate {
  t_id : string;
  t_type : string;
  t_operation : string;
  t_template : string;
  minValue : Z;
  maxValue : Z;
  t_visualHint : bool;
  t_hintType : option string
}.

(** A generated question. *)
Record question := mkQuestion {
  q_id : string;
  q_type : string;
  q_operation : string;
  questionText : string;
  answer : Z;
  q_visualHint : bool;
  q_hintType : option string;
  value_a : Z;
  value_b : Z;
  q_difficulty : string
}.

(** The question bank: a JS object from tier names to template arrays. *)
Definition bank := list (string * list template).

Fixpoint bank_lookup (b : bank) (k : string) : option (list template) :=
  match b with
  | [] => None
  | (k', v) :: b' => if String.eqb k k' then Some v else bank_lookup b' k
  end.

(** The fields of a [MathEngine] object. *)
Record engine := mkEngine {
  questionBank : option bank;
  currentDifficulty : string;
  recentQuestions : list string;
  currentQuestion : option question
}.

Definition maxRecentQuestions : nat := 3.

Definition constructor : engine :=
  mkEngine None "easy" [] None.

Definition validLevels : list string := ["easy"; "medium"; "hard"].

(** [setDifficulty(level)]. *)
Definition setDifficulty (level : string) (e : engine) : engine :=
  if negb (existsb (String.eqb level) validLevels)
  then mkEngine (questionBank e) "easy" (recentQuestions e) (currentQuestion e)
  else mkEngine (questionBank e) level [] (currentQuestion e).

(** [randomInt(min, max)]: [k] is [Math.floor(Math.random() * (max - min + 1))]. *)
Definition randomInt (min max k : Z) : Z := k + min.

(** [getRandomElement(array)]: [k] is [Math.floor(Math.random() * array.length)]. *)
Definition getRandomElement {A} (array : list A) (k : nat) : option A :=
  match array with
  | [] => None
  | _ => nth_error array k
  end.

(** [generateQuestion(template)] with sampled operands [a] and [b]. *)
Definition generateQuestion (e : engine) (now : Z) (tmpl : template) (a b : Z)
    : question :=
  let answer :=
    if String.eqb (t_operation tmpl) "addition" then a + b
    else if String.eqb (t_operation tmpl) "subtraction"
    then Z.max a b - Z.min a b
    else a + b in
  let questionText :=
    replace_first "{b}" (js_number_toString b)
      (replace_first "{a}" (js_number_toString a) (t_template tmpl)) in
  let questionText :=
    if String.eqb (t_operation tmpl) "subtraction"
    then let larger := Z.max a b in
         let smaller := Z.min a b in
         replace_first "{b}" (js_number_toString smaller)
           (replace_first "{a}" (js_number_toString larger) (t_template tmpl))
    else questionText in
  mkQuestion (t_id tmpl ++ "_" ++ js_number_toString now) (t_type tmpl)
    (t_operation tmpl) questionText answer (t_visualHint tmpl) (t_hintType tmpl)
    a b (currentDifficulty e).

(** [generateFallbackQuestion()] with operands [a], [b] drawn in [1..10]. *)
Definition generateFallbackQuestion (now a b : Z) : question :=
  mkQuestion ("fallback_" ++ js_number_toString now) "equation" "addition"
    (js_number_toString a ++ " + " ++ js_number_toString b ++ " = ?")
    (a + b) false None a b "easy".

(** [addToRecentQuestions(questionId)]: push, then one [shift] when the
    window is over its bound. *)
Definition addToRecentQuestions (questionId : string) (recent : list string)
    : list string :=
  let pushed := (recent ++ [questionId])%list in
  if (maxRecentQuestions <? length pushed)%nat then tl pushed else pushed.

Definition mk_template (id type op text : string) (lo hi : Z) (hint : bool)
    (hintType : option string) : template :=
  mkTemplate id type op text lo hi hint hintType.

(** [getDefaultQuestionBank()]. *)
Definition getDefaultQuestionBank : bank :=
  [("easy",
    [mk_template "add_easy_001" "equation" "addition" "{a} + {b} = ?" 0 10 true (Some "bananas");
     mk_template "add_easy_002" "word-problem" "addition"
       "The gorilla found {a} bananas. Then found {b} more. How many total?" 0 10 true (Some "bananas");
     mk_template "sub_easy_001" "equation" "subtraction" "{a} - {b} = ?" 0 10 true (Some "bananas");
     mk_template "sub_easy_002" "word-problem" "subtraction"
       "The gorilla had {a} bananas and ate {b}. How many are left?" 0 10 true (Some "bananas")]);
   ("medium",
    [mk_template "add_medium_001" "equation" "addition" "{a} + {b} = ?" 10 25 false None;
     mk_template "sub_medium_001" "equation" "subtraction" "{a} - {b} = ?" 10 25 false None;
     mk_template "add_medium_002" "word-problem" "addition"
       "The gorilla swung past {a} vines and then {b} more. How many vines total?" 10 25 false None]);
   ("hard",
    [mk_template "add_hard_001" "equation" "addition" "{a} + {b} = ?" 25 50 false None;
     mk_template "sub_hard_001" "equation" "subtraction" "{a} - {b} = ?" 25 50 false None;
     mk_template "add_hard_002" "word-problem" "addition"
       "The gorilla collected {a} bananas yesterday and {b} today. How many total?" 25 50 false None])].

(** The bank in use once [getNextQuestion] has run its first check. *)
Definition bank_in_use (e : engine) : bank :=
  match questionBank e with
  | Some qb => qb
  | None => getDefaultQuestionBank
  end.

(** The candidate pool: the templates not in the window, or the whole
    pool when every template is in it. *)
Definition candidatePool (pool : list template) (recent : list string)
    : list template :=
  let available :=
    filter (fun tmpl => negb (existsb (String.eqb (t_id tmpl)) recent)) pool in
  if (0 <? length available)%nat then available else pool.

(** [getNextQuestion()].  [k] is the random index into the candidate
    pool, [a] and [b] the sampled operands, [now] the time.  [None] is the
    [TypeError] of [template.id] on a [null] template, which a random index
    in range never produces. *)
Definition getNextQuestion (e : engine) (k : nat) (a b now : Z)
    : option (engine * question) :=
  let qb := bank_in_use e in
  let e := mkEngine (Some qb) (currentDifficulty e) (recentQuestions e)
             (currentQuestion e) in
  match bank_lookup qb (currentDifficulty e) with
  | None | Some [] => Some (e, generateFallbackQuestion now a b)
  | Some pool =>
      match getRandomElement (candidatePool pool (recentQuestions e)) k with
      | None => None
      | Some tmpl =>
          let q := generateQuestion e now tmpl a b in
          let recent := addToRecentQuestions (t_id tmpl) (recentQuestions e) in
          Some (mkEngine (Some qb) (currentDifficulty e) recent (Some q), q)
      end
  end.

(** The validation outcome bucket that selects the message. *)
Inductive message :=
  | MsgNoQuestion | MsgInvalidNumber | MsgCorrect | MsgClose | MsgFar.

(** The object returned by [validateAnswer]; [close], [userAnswer] and
    [correctAnswer] are absent ([None]) on the failure paths. *)
Record validation := mkValidation {
  valid : bool;
  correct : bool;
  close : option bool;
  userAnswer : option Z;
  correctAnswer : option Z;
  v_message : message
}.

(** An answer passed to [validateAnswer]: a JS number or a string. *)
Inductive input := InNum (n : Z) | InStr (s : string).

(** [sanitizeInput(input)]. *)
Definition sanitizeInput (i : input) : string :=
  match i with
  | InNum n => js_number_toString n
  | InStr s => keep_digits_and_minus (js_trim s)
  end.

(** [validateAnswer(userInput, correctAnswer = null)]. *)
Definition validateAnswer (e : engine) (userInput : input)
    (correctAnswer_arg : option Z) : validation :=
  let expected :=
    match correctAnswer_arg with
    | Some c => Some c
    | None => option_map answer (currentQuestion e)
    end in
  match expected with
  | None => mkValidation false false None None None MsgNoQuestion
  | Some expected =>
      match parseInt (sanitizeInput userInput) with
      | None => mkValidation false false None None None MsgInvalidNumber
      | Some u =>
          let isCorrect := Z.eqb u expected in
          let isClose := Z.abs (u - expected) <=? 2 in
          mkValidation true isCorrect (Some (negb isCorrect && isClose))
            (Some u) (Some expected)
            (if isCorrect then MsgCorrect
             else if isClose then MsgClose else MsgFar)
      end
  end.

(** [reset()]. *)
Definition reset (e : engine) : engine :=
  mkEngine (questionBank e) (currentDifficulty e) [] None.

(** Consecutive [getNextQuestion()] calls, each with its random index,
    operands and time; the engine states after each call, or [None] if a
    call throws. *)
Fixpoint getNextQuestion_run (e : engine) (draws : list (nat * Z * Z * Z))
    : option (list engine) :=
  match draws with
  | [] => Some []
  | (k, a, b, now) :: draws' =>
      match getNextQuestion e k a b now with
      | None => None
      | Some (e', _) => option_map (cons e') (getNextQuestion_run e' draws')
      end
  end.

(** The template id a call recorded: the newest entry of the window. *)
Definition lastRecent (e : engine) : string := last (recentQuestions e) "".

End MathEngine.

(** ** The progress model (class [ProgressManager]) *)
Module ProgressManager.

(** A JS object keyed by the three tier names. *)
Record per_tier (A : Type) := mkTiers { tier_easy : A; tier_medium : A; tier_hard : A }.
Arguments mkTiers {A}.
Arguments tier_easy {A}.
Arguments tier_medium {A}.
Arguments tier_hard {A}.

(** [obj[difficulty]]: [undefined] ([None]) for any other key. *)
Definition get_tier {A} (d : string) (t : per_tier A) : option A :=
  if String.eqb d "easy" then Some (tier_easy t)
  else if String.eqb d "medium" then Some (tier_medium t)
  else if String.eqb d "hard" then Some (tier_hard t)
  else None.

(** [obj[difficulty] = v] on one of the three keys. *)
Definition set_tier {A} (d : string) (v : A) (t : per_tier A) : per_tier A :=
  if String.eqb d "easy" then mkTiers v (tier_medium t) (tier_hard t)
  else if String.eqb d "medium" then mkTiers (tier_easy t) v (tier_hard t)
  else if String.eqb d "hard" then mkTiers (tier_easy t) (tier_medium t) v
  else t.

Record session_data := mkSession {
  difficulty : string;
  currentQuestion : Z;
  totalQuestions : Z;
  score : Z;
  correctAnswers : Z;
  incorrectAnswers : Z;
  totalAnswers : Z;
  bananasCollected : Z;
  startTime : Z;
  elapsedTime : Z;
  starsEarned : Z
}.

Record preferences := mkPreferences { soundEnabled : bool; musicEnabled : bool }.

Record persistent_data := mkPersistent {
  playerId : string;
  createdAt : Z;
  lastPlayed : Z;
  totalSessions : Z;
  totalBananas : Z;
  totalStars : Z;
  levelsCompleted : per_tier (list Z);
  highScores : per_tier Z;
  prefs : preferences
}.

(** The [persistent] field of a parsed storage entry: each field may be
    absent. *)
Record stored_persistent := mkStoredPersistent {
  sp_playerId : option string;
  sp_createdAt : option Z;
  sp_lastPlayed : option Z;
  sp_totalSessions : option Z;
  sp_totalBananas : option Z;
  sp_totalStars : option Z;
  sp_levelsCompleted : option (per_tier (list Z));
  sp_highScores : option (per_tier Z);
  sp_preferences : option preferences
}.

Record last_session := mkLastSession {
  ls_difficulty : string;
  ls_score : Z;
  ls_stars : Z;
  ls_bananas : Z;
  ls_timestamp : Z
}.

(** The object written to and read from [localStorage]. *)
Record stored_data := mkStored {
  sd_persistent : option stored_persistent;
  sd_lastSession : option last_session
}.

(** The fields of a [ProgressManager], with the [localStorage] entry under
    [storageKey]. *)
Record manager := mkManager {
  sessionData : session_data;
  persistentData : persistent_data;
  storage : option string
}.

Definition storageKey : string := "gorilla-math-progress".

(** [getDefaultSessionData()]. *)
Definition getDefaultSessionData (now : Z) : session_data :=
  mkSession "easy" 0 5 0 0 0 0 0 now 0 0.

(** [generatePlayerId()]; [rnd] is [Math.random().toString(36).substring(2, 9)]. *)
Definition generatePlayerId (now : Z) (rnd : string) : string :=
  "player_" ++ js_number_toString now ++ "_" ++ rnd.

(** [getDefaultPersistentData()]. *)
Definition getDefaultPersistentData (now : Z) (rnd : string) : persistent_data :=
  mkPersistent (generatePlayerId now rnd) now now 0 0 0
    (mkTiers [] [] []) (mkTiers 0 0 0) (mkPreferences true true).

(** [new ProgressManager()], with the storage entry found at that time. *)
Definition constructor (now : Z) (rnd : string) (st : option string) : manager :=
  mkManager (getDefaultSessionData now) (getDefaultPersistentData now rnd) st.

Definition set_session (m : manager) (s : session_data) : manager :=
  mkManager s (persistentData m) (storage m).

Definition set_persistent (m : manager) (p : persistent_data) : manager :=
  mkManager (sessionData m) p (storage m).

(** [startSession(difficulty, totalQuestions)]. *)
Definition startSession (d : string) (tq now : Z) (m : manager) : manager :=
  let s := getDefaultSessionData now in
  set_session m (mkSession d (currentQuestion s) tq (score s) (correctAnswers s)
    (incorrectAnswers s) (totalAnswers s) (bananasCollected s) now
    (elapsedTime s) (starsEarned s)).

(** [incrementScore(points)]: negative points are rejected. *)
Definition incrementScore (points : Z) (m : manager) : manager :=
  let s := sessionData m in
  if points <? 0 then m
  else set_session m (mkSession (difficulty s) (currentQuestion s)
    (totalQuestions s) (score s + points) (correctAnswers s) (incorrectAnswers s)
    (totalAnswers s) (bananasCollected s) (startTime s) (elapsedTime s)
    (starsEarned s)).

(** [recordAnswer(isCorrect)]. *)
Definition recordAnswer (isCorrect : bool) (m : manager) : manager :=
  let s := sessionData m in
  let total := totalAnswers s + 1 in
  if isCorrect
  then set_session m (mkSession (difficulty s) (currentQuestion s)
    (totalQuestions s) (score s) (correctAnswers s + 1) (incorrectAnswers s)
    total (bananasCollected s) (startTime s) (elapsedTime s) (starsEarned s))
  else set_session m (mkSession (difficulty s) (currentQuestion s)
    (totalQuestions s) (score s) (correctAnswers s) (incorrectAnswers s + 1)
    total (bananasCollected s) (startTime s) (elapsedTime s) (starsEarned s)).

(** [addBananas(count)]: negative counts are rejected. *)
Definition addBananas (count : Z) (m : manager) : manager :=
  let s := sessionData m in
  if count <? 0 then m
  else set_session m (mkSession (difficulty s) (currentQuestion s)
    (totalQuestions s) (score s) (correctAnswers s) (incorrectAnswers s)
    (totalAnswers s) (bananasCollected s + count) (startTime s) (elapsedTime s)
    (starsEarned s)).

(** [nextQuestion()]. *)
Definition nextQuestion (m : manager) : manager :=
  let s := sessionData m in
  set_session m (mkSession (difficulty s) (currentQuestion s + 1)
    (totalQuestions s) (score s) (correctAnswers s) (incorrectAnswers s)
    (totalAnswers s) (bananasCollected s) (startTime s) (elapsedTime s)
    (starsEarned s)).

(** [calculateAccuracy()]. *)
Definition calculateAccuracy (m : manager) : Q :=
  let s := sessionData m in
  if totalAnswers s =? 0 then 0%Q
  else ((inject_Z (correctAnswers s) / inject_Z (totalAnswers s)) * 100)%Q.

(** [calculateStars()]. *)
Definition calculateStars (m : manager) : Z :=
  let accuracy := calculateAccuracy m in
  if Qle_bool 95 accuracy then 3
  else if Qle_bool 80 accuracy then 2
  else if Qle_bool 60 accuracy then 1
  else 0.

(** [updateElapsedTime()]. *)
Definition updateElapsedTime (now : Z) (m : manager) : manager :=
  let s := sessionData m in
  set_session m (mkSession (difficulty s) (currentQuestion s)
    (totalQuestions s) (score s) (correctAnswers s) (incorrectAnswers s)
    (totalAnswers s) (bananasCollected s) (startTime s) (now - startTime s)
    (starsEarned s)).

(** What [JSON.parse] returns: [null], an object with the two fields the
    code reads, or another value (whose [persistent] field is
    [undefined]). *)
Inductive parsed := PNull | PObject (d : stored_data) | POther.

(** The object returned by [completeSession()]. *)
Record session_result := mkResult {
  r_score : Z;
  r_accuracy : Q;
  r_stars : Z;
  r_bananas : Z;
  r_correctAnswers : Z;
  r_totalAnswers : Z;
  r_elapsedTime : Z
}.

Section Storage.

(** [JSON.stringify] and [JSON.parse]; [None] is a [SyntaxError]. *)
Variable json_stringify : stored_data -> string.
Variable json_parse : string -> option parsed.

Definition to_stored (p : persistent_data) : stored_persistent :=
  mkStoredPersistent (Some (playerId p)) (Some (createdAt p)) (Some (lastPlayed p))
    (Some (totalSessions p)) (Some (totalBananas p)) (Some (totalStars p))
    (Some (levelsCompleted p)) (Some (highScores p)) (Some (prefs p)).

(** [saveProgress()]; [write_ok] is false when [localStorage.setItem]
    throws (quota exceeded, storage unavailable). *)
Definition saveProgress (now : Z) (write_ok : bool) (m : manager) : manager * bool :=
  let s := sessionData m in
  let data := mkStored (Some (to_stored (persistentData m)))
    (Some (mkLastSession (difficulty s) (score s) (starsEarned s)
       (bananasCollected s) now)) in
  if write_ok
  then (mkManager (sessionData m) (persistentData m) (Some (json_stringify data)), true)
  else (m, false).

(** [completeSession()].  On a session whose difficulty is not a tier
    name, [levelsCompleted[difficulty].length] throws: the result is
    [None] and the state is the one reached before the throw. *)
Definition completeSession (now : Z) (write_ok : bool) (m : manager)
    : manager * option session_result :=
  let m := updateElapsedTime now m in
  let stars := calculateStars m in
  let s0 := sessionData m in
  let s := mkSession (difficulty s0) (currentQuestion s0) (totalQuestions s0)
    (score s0) (correctAnswers s0) (incorrectAnswers s0) (totalAnswers s0)
    (bananasCollected s0) (startTime s0) (elapsedTime s0) stars in
  let p := persistentData m in
  let d := difficulty s in
  let hs :=
    match get_tier d (highScores p) with
    | Some h => if h <? score s then set_tier d (score s) (highScores p)
                else highScores p
    | None => highScores p
    end in
  let p := mkPersistent (playerId p) (createdAt p) now (totalSessions p + 1)
    (totalBananas p + bananasCollected s) (totalStars p + stars)
    (levelsCompleted p) hs (prefs p) in
  let m := mkManager s p (storage m) in
  match get_tier d (levelsCompleted p) with
  | None => (m, None)
  | Some lv =>
      let levelNumber := Z.of_nat (length lv) + 1 in
      let lv := if existsb (Z.eqb levelNumber) lv then lv
                else (lv ++ [levelNumber])%list in
      let p := mkPersistent (playerId p) (createdAt p) (lastPlayed p)
        (totalSessions p) (totalBananas p) (totalStars p)
        (set_tier d lv (levelsCompleted p)) (highScores p) (prefs p) in
      let m := fst (saveProgress now write_ok (set_persistent m p)) in
      (m, Some (mkResult (score s) (calculateAccuracy m) stars
                 (bananasCollected s) (correctAnswers s) (totalAnswers s)
                 (elapsedTime s)))
  end.

Definition pick {A} (o : option A) (dflt : A) : A :=
  match o with Some v => v | None => dflt end.

(** [{...this.getDefaultPersistentData(), ...data.persistent}]. *)
Definition merge_persistent (dflt : persistent_data) (sp : stored_persistent)
    : persistent_data :=
  mkPersistent (pick (sp_playerId sp) (playerId dflt))
    (pick (sp_createdAt sp) (createdAt dflt))
    (pick (sp_lastPlayed sp) (lastPlayed dflt))
    (pick (sp_totalSessions sp) (totalSessions dflt))
    (pick (sp_totalBananas sp) (totalBananas dflt))
    (pick (sp_totalStars sp) (totalStars dflt))
    (pick (sp_levelsCompleted sp) (levelsCompleted dflt))
    (pick (sp_highScores sp) (highScores dflt))
    (pick (sp_preferences sp) (prefs dflt)).

(** [loadProgress()]; [now] and [rnd] feed the defaults it merges over.
    The [TypeError] of [null.persistent] is caught like a [SyntaxError]. *)
Definition loadProgress (now : Z) (rnd : string) (m : manager) : manager * bool :=
  match storage m with
  | None | Some EmptyString => (m, false)
  | Some saved =>
      match json_parse saved with
      | None | Some PNull => (m, false)
      | Some POther => (m, true)
      | Some (PObject data) =>
          match sd_persistent data with
          | Some sp =>
              (set_persistent m (merge_persistent (getDefaultPersistentData now rnd) sp), true)
          | None => (m, true)
          end
      end
  end.

(** [initialize()]. *)
Definition initialize (now : Z) (rnd : string) (m : manager) : manager :=
  fst (loadProgress now rnd m).

(** [resetSession()]. *)
Definition resetSession (now : Z) (m : manager) : manager :=
  set_session m (getDefaultSessionData now).

(** [resetAllProgress()]; [remove_ok] is false when
    [localStorage.removeItem] throws. *)
Definition resetAllProgress (now : Z) (rnd : string) (remove_ok : bool)
    (m : manager) : manager :=
  mkManager (getDefaultSessionData now) (getDefaultPersistentData now rnd)
    (if remove_ok then None else storage m).

(** [updatePreferences(preferences)], the update object having optional
    [soundEnabled] and [musicEnabled] fields. *)
Definition updatePreferences (sound music : option bool) (now : Z)
    (write_ok : bool) (m : manager) : manager :=
  let p := persistentData m in
  let pr := mkPreferences (pick sound (soundEnabled (prefs p)))
    (pick music (musicEnabled (prefs p))) in
  fst (saveProgress now write_ok (set_persistent m
    (mkPersistent (playerId p) (createdAt p) (lastPlayed p) (totalSessions p)
       (totalBananas p) (totalStars p) (levelsCompleted p) (highScores p) pr))).

(** A call of one of the mutating methods, with the time, random values
    and storage outcomes it sees. *)
Inductive op :=
  | StartSession (d : string) (tq now : Z)
  | IncrementScore (points : Z)
  | RecordAnswer (isCorrect : bool)
  | AddBananas (count : Z)
  | NextQuestion
  | UpdateElapsedTime (now : Z)
  | CompleteSession (now : Z) (write_ok : bool)
  | SaveProgress (now : Z) (write_ok : bool)
  | LoadProgress (now : Z) (rnd : string)
  | ResetSession (now : Z)
  | ResetAllProgress (now : Z) (rnd : string) (remove_ok : bool)
  | UpdatePreferences (sound music : option bool) (now : Z) (write_ok : bool).

Definition exec (o : op) (m : manager) : manager :=
  match o with
  | StartSession d tq now => startSession d tq now m
  | IncrementScore pts => incrementScore pts m
  | RecordAnswer c => recordAnswer c m
  | AddBananas n => addBananas n m
  | NextQuestion => nextQuestion m
  | UpdateElapsedTime now => updateElapsedTime now m
  | CompleteSession now ok => fst (completeSession now ok m)
  | SaveProgress now ok => fst (saveProgress now ok m)
  | LoadProgress now rnd => fst (loadProgress now rnd m)
  | ResetSession now => resetSession now m
  | ResetAllProgress now rnd ok => resetAllProgress now rnd ok m
  | UpdatePreferences s mu now ok => updatePreferences s mu now ok m
  end.

Definition exec_all (os : list op) (m : manager) : manager :=
  fold_left (fun m o => exec o m) os m.

End Storage.

(** The calls that leave the stored high scores to [completeSession]
    alone: all but [loadProgress] and [resetAllProgress], which replace the
    whole record. *)
Definition keeps_high_scores (o : op) : bool :=
  match o with
  | LoadProgress _ _ | ResetAllProgress _ _ _ => false
  | _ => true
  end.

(** The answer counters of a session. *)
Definition counters (s : session_data) : Z * Z * Z :=
  (correctAnswers s, incorrectAnswers s, totalAnswers s).

(** The calls that start a fresh session record. *)
Definition resets_session (o : op) : bool :=
  match o with
  | StartSession _ _ _ | ResetSession _ | ResetAllProgress _ _ _ => true
  | _ => false
  end.

Definition is_record_answer (o : op) : bool :=
  match o with RecordAnswer _ => true | _ => false end.

End ProgressManager.

(** ** The remaining checks of src/src/utils/validators.js *)
Module Validators.
Import MathEngine.

(** [isValidNumber(input)] on a JS number [n]: [n === ''] is false and
    [String(n)] is the printed integer, so the string path decides. *)
Definition isValidNumber_num (n : Z) : bool :=
  validators_isValidNumber (js_number_toString n).

(** [String.prototype.toLowerCase()] on a Latin-1 character: [A-Z] and
    [U+00C0-U+00DE] except the multiplication sign [U+00D7] map 32 code
    points up. *)
Definition js_toLowerChar (c : ascii) : ascii :=
  let n := nat_of_ascii c in
  if ((65 <=? n)%nat && (n <=? 90)%nat)
     || ((192 <=? n)%nat && (n <=? 222)%nat && negb (n =? 215)%nat)
  then ascii_of_nat (n + 32) else c.

Fixpoint js_toLowerCase (s : string) : string :=
  match s with
  | EmptyString => EmptyString
  | String c s' => String (js_toLowerChar c) (js_toLowerCase s')
  end.

(** [isValidDifficulty(difficulty)] on a string. *)
Definition isValidDifficulty (difficulty : string) : bool :=
  existsb (String.eqb (js_toLowerCase difficulty)) ["easy"; "medium"; "hard"].

(** [isAnswerClose(userAnswer, correctAnswer, threshold)] on numbers. *)
Definition isAnswerClose (userAnswer correctAnswer threshold : Z) : bool :=
  if negb (isValidNumber_num userAnswer) || negb (isValidNumber_num correctAnswer)
  then false
  else let diff := Z.abs (userAnswer - correctAnswer) in
       (0 <? diff) && (diff <=? threshold).

(** [isValidQuestion(question)] on a question object built by the engine,
    which has the five required fields as own properties. *)
Definition isValidQuestion (q : question) : bool :=
  if negb (isValidNumber_num (answer q)) then false
  else if negb (existsb (String.eqb (q_type q)) ["equation"; "word-problem"; "visual"])
  then false
  else if negb (existsb (String.eqb (q_operation q)) ["addition"; "subtraction"])
  then false
  else true.

(** A template whose type and operation [isValidQuestion] accepts. *)
Definition valid_template (t : template) : bool :=
  existsb (String.eqb (t_type t)) ["equation"; "word-problem"; "visual"] &&
  existsb (String.eqb (t_operation t)) ["addition"; "subtraction"].

Definition is_alnum (c : ascii) : bool :=
  let n := nat_of_ascii c in
  ((48 <=? n)%nat && (n <=? 57)%nat) || ((65 <=? n)%nat && (n <=? 90)%nat)
  || ((97 <=? n)%nat && (n <=? 122)%nat).

(** [validatePlayerName(name)]; [None] is a missing or non-string name.
    The class [\s] of the pattern is the white space of [trim]. *)
Definition validatePlayerName (name : option string) : bool * string :=
  match name with
  | None | Some EmptyString => (false, "Name is required")
  | Some n =>
      let trimmed := js_trim n in
      if (String.length trimmed =? 0)%nat then (false, "Name cannot be empty")
      else if (String.length trimmed <? 2)%nat
      then (false, "Name must be at least 2 characters")
      else if (20 <? String.length trimmed)%nat
      then (false, "Name must be 20 characters or less")
      else if negb (forallb (fun c => is_alnum c || is_js_space c)
                      (list_ascii_of_string trimmed))
      then (false, "Name can only contain letters, numbers, and spaces")
      else (true, "Valid name")
  end.

End Validators.

(** ** The queries, export and import of [ProgressManager] *)
Module ProgressQueries.
Import ProgressManager.


(** [getCompletedLevels(difficulty)]: [levelsCompleted[difficulty] || []]. *)
Definition getCompletedLevels (d : string) (m : manager) : list Z :=
  pick (get_tier d (levelsCompleted (persistentData m))) [].

(** [isLevelCompleted(difficulty, levelNumber)]; [None] is the
    [TypeError] of [undefined.includes] for a name that is not a tier. *)
Definition isLevelCompleted (d : string) (levelNumber : Z) (m : manager) : option bool :=
  option_map (existsb (Z.eqb levelNumber)) (get_tier d (levelsCompleted (persistentData m))).

(** The object literal written by [saveProgress()] at time [now]. *)
Definition progress_data (now : Z) (m : manager) : stored_data :=
  let s := sessionData m in
  mkStored (Some (to_stored (persistentData m)))
    (Some (mkLastSession (difficulty s) (score s) (starsEarned s)
       (bananasCollected s) now)).

(** The [persistent] field of the object returned by [exportProgress()]:
    the persistent record itself, every field present. *)
Definition exportProgress_persistent (m : manager) : stored_persistent :=
  to_stored (persistentData m).

Section Importing.
Variable json_stringify : stored_data -> string.

(** [importProgress(data)]: [None] is a [null] or [undefined] argument,
    whose [TypeError] is caught; [Some sp] is the argument's [persistent]
    field, absent or present.  [saveProgress] catches its own errors. *)
Definition importProgress (now : Z) (rnd : string) (write_ok : bool)
    (data : option (option stored_persistent)) (m : manager) : manager * bool :=
  match data with
  | None => (m, false)
  | Some sp =>
      let m := match sp with
               | Some p => set_persistent m (merge_persistent (getDefaultPersistentData now rnd) p)
               | None => m
               end in
      (fst (saveProgress json_stringify now write_ok m), true)
  end.

End Importing.

End ProgressQueries.

(** ** The progress calls of [GameScene] (src/unnamed/part_009) *)
Module GameScene.
Import ProgressManager.

(** [SCORING.CORRECT_ANSWER] of src/src/utils/constants.js. *)
Definition SCORING_CORRECT_ANSWER : Z := 100.

(** The progress calls of [showFeedback(result)]; [isCorrect] is
    [result.correct]. *)
Definition showFeedback (isCorrect : bool) (m : manager) : manager :=
  if isCorrect
  then incrementScore SCORING_CORRECT_ANSWER (recordAnswer true m)
  else recordAnswer false m.

(** The progress call of [collectBanana(banana)]. *)
Definition collectBanana (m : manager) : manager := addBananas 1 m.

(** The scene callbacks that reach the progress manager during a level. *)
Inductive scene_event := Feedback (isCorrect : bool) | CollectBanana.

Definition scene_step (m : manager) (ev : scene_event) : manager :=
  match ev with
  | Feedback c => showFeedback c m
  | CollectBanana => collectBanana m
  end.

Definition scene_run (evs : list scene_event) (m : manager) : manager :=
  fold_left scene_step evs m.

Definition count_correct (evs : list scene_event) : Z :=
  Z.of_nat (length (filter (fun ev => match ev with Feedback true => true | _ => false end) evs)).

Definition count_feedback (evs : list scene_event) : Z :=
  Z.of_nat (length (filter (fun ev => match ev with Feedback _ => true | _ => false end) evs)).

Definition count_bananas (evs : list scene_event) : Z :=
  Z.of_nat (length (filter (fun ev => match ev with CollectBanana => true | _ => false end) evs)).

End GameScene.

(** ** Character classes used by the string properties *)
Module StringClasses.

(** The characters kept by the engine's sanitizer: a digit or [-]. *)
Definition is_dm (c : ascii) : bool := is_digit c || is_minus c.

Definition all_chars (f : ascii -> bool) (s : string) : bool :=
  forallb f (list_ascii_of_string s).

Definition has_digit (s : string) : bool := existsb is_digit (list_ascii_of_string s).

(** The two shapes of [validators_sanitizeInput]'s output: digits only, or
    a minus sign followed by digits only. *)
Definition sanitized_shape (s : string) : Prop :=
  all_chars is_digit s = true \/
  exists t, s = String "-" t /\ all_chars is_digit t = true.

End StringClasses.

(** * Properties of the question engine *)
Module EngineFacts.
Import MathEngine.

(** ** Placeholder substitution *)

Lemma prefix_app_self (p y : string) : String.prefix p (p ++ y) = true.
Proof.
  induction p as [|c p IH]; simpl; [destruct y; reflexivity|].
  destruct (ascii_dec c c) as [_|n]; [exact IH|contradiction].
Qed.

Lemma substring_0_all (m : nat) (y : string) :
  (String.length y <= m)%nat -> String.substring 0 m y = y.
Proof.
  revert m; induction y as [|c y IH]; intros m Hm; simpl in *.
  - destruct m; reflexivity.
  - destruct m as [|m]; [lia|]. simpl. rewrite IH by lia. reflexivity.
Qed.

Lemma substring_after_app (p y : string) (m : nat) :
  (String.length y <= m)%nat ->
  String.substring (String.length p) m (p ++ y) = y.
Proof.
  intros Hm; induction p as [|c p IH]; simpl.
  - apply substring_0_all; exact Hm.
  - exact IH.
Qed.

Lemma length_app_ge (p y : string) :
  (String.length y <= String.length (p ++ y))%nat.
Proof. induction p; simpl; lia. Qed.

(** The first occurrence of a pattern at the front of the string. *)
Lemma replace_first_here (pat rep y : string) :
  replace_first pat rep (pat ++ y) = rep ++ y.
Proof.
  destruct (pat ++ y) eqn:E;
    unfold replace_first; rewrite <- E; rewrite prefix_app_self;
    rewrite substring_after_app by apply length_app_ge; reflexivity.
Qed.

Lemma replace_first_cons (pat rep : string) (c : ascii) (s : string) :
  replace_first pat rep (String c s)
  = if String.prefix pat (String c s)
    then rep ++ String.substring (String.length pat) (String.length (String c s)) (String c s)
    else String c (replace_first pat rep s).
Proof. reflexivity. Qed.

Lemma prefix_brace_other (p' s : string) (c : ascii) :
  c <> "{"%char -> String.prefix (String "{" p') (String c s) = false.
Proof.
  intros Hc.
  change (String.prefix (String "{" p') (String c s))
    with (if ascii_dec "{" c then String.prefix p' s else false).
  destruct (ascii_dec "{" c) as [E|_]; [congruence|reflexivity].
Qed.

(** A brace-free prefix is copied when the pattern starts with a brace. *)
Lemma replace_first_skip (x y p' rep : string) :
  has_no_brace x = true ->
  replace_first (String "{" p') rep (x ++ y) = x ++ replace_first (String "{" p') rep y.
Proof.
  induction x as [|c x IH]; intros H; [reflexivity|].
  cbn [has_no_brace] in H. apply andb_prop in H as [Hc Hx].
  cbn [append]. rewrite replace_first_cons, prefix_brace_other.
  - rewrite IH by exact Hx. reflexivity.
  - destruct (Ascii.eqb_spec c "{"%char); [discriminate Hc|assumption].
Qed.

Lemma has_no_brace_uint (d : Decimal.uint) :
  has_no_brace (NilEmpty.string_of_uint d) = true.
Proof. induction d; simpl; auto. Qed.

(** A printed integer contains no brace. *)
Lemma has_no_brace_number (n : Z) : has_no_brace (js_number_toString n) = true.
Proof.
  unfold js_number_toString. destruct (Z.to_int n) as [d|d]; simpl.
  - apply has_no_brace_uint.
  - apply has_no_brace_uint.
Qed.

Lemma has_no_brace_app (x y : string) :
  has_no_brace x = true -> has_no_brace y = true -> has_no_brace (x ++ y) = true.
Proof.
  induction x as [|c x IH]; simpl; intros Hx Hy; [exact Hy|].
  apply andb_prop in Hx as [Hc Hx]. rewrite Hc, IH; auto.
Qed.

(** Filling the two placeholders of a template [pre{a}mid{b}post]. *)
Lemma fill_placeholders (pre mid post sa sb : string) :
  has_no_brace pre = true -> has_no_brace mid = true -> has_no_brace sa = true ->
  replace_first "{b}" sb (replace_first "{a}" sa (pre ++ "{a}" ++ mid ++ "{b}" ++ post))
  = pre ++ sa ++ mid ++ sb ++ post.
Proof.
  intros Hp Hm Ha.
  rewrite (replace_first_skip pre _ "a}") by exact Hp.
  rewrite replace_first_here.
  rewrite (replace_first_skip pre _ "b}") by exact Hp.
  rewrite (replace_first_skip sa _ "b}") by exact Ha.
  rewrite (replace_first_skip mid _ "b}") by exact Hm.
  rewrite replace_first_here. reflexivity.
Qed.

(** ** C1 *)

(** Claim C1: for a subtraction template [pre{a}mid{b}post] (no brace in
    [pre] or [mid]) and any sampled operands [a] and [b], the generated
    answer is the larger operand minus the smaller one, hence non-negative,
    and the text has the larger operand in the [{a}] placeholder and the
    smaller one in the [{b}] placeholder. *)
Theorem generateQuestion_subtraction_nonneg (e : engine) (now : Z) (tmpl : template)
    (a b : Z) (pre mid post : string) :
  t_operation tmpl = "subtraction" ->
  t_template tmpl = pre ++ "{a}" ++ mid ++ "{b}" ++ post ->
  has_no_brace pre = true -> has_no_brace mid = true ->
  (answer (generateQuestion e now tmpl a b) = Z.max a b - Z.min a b) /\
  (0 <= answer (generateQuestion e now tmpl a b)) /\
  (questionText (generateQuestion e now tmpl a b)
   = pre ++ js_number_toString (Z.max a b) ++ mid
         ++ js_number_toString (Z.min a b) ++ post).
Proof.
  intros Hop Htext Hp Hm.
  unfold generateQuestion; simpl. rewrite Hop, Htext; simpl.
  split; [reflexivity|]. split; [lia|].
  apply fill_placeholders; auto using has_no_brace_number.
Qed.

(** ** C2 *)

Lemma close_iff (u expected : Z) :
  negb (u =? expected) && (Z.abs (u - expected) <=? 2) = true
  <-> 0 < Z.abs (u - expected) <= 2.
Proof.
  rewrite andb_true_iff, negb_true_iff, Z.eqb_neq, Z.leb_le.
  split; intros [H1 H2]; split; lia.
Qed.

Lemma not_correct_and_close (u expected : Z) :
  ~ ((u =? expected) = true /\ negb (u =? expected) && (Z.abs (u - expected) <=? 2) = true).
Proof. intros [H1 H2]. rewrite H1 in H2. discriminate H2. Qed.

(** Claim C2: when an answer is checked against an expected value and its
    sanitized form parses to an integer [u], [correct] is [u = expected]
    and [close] is present and true exactly when
    [0 < |u - expected| <= 2], so [correct] and [close] are never both
    true.  This holds for [MathEngine.validateAnswer] and for
    [validateAnswer] of validators.js (whose validity check accepts the
    sanitized string). *)
Theorem validateAnswer_correct_close (e : engine) (i : input) (ca : option Z)
    (raw : option string) (expected u v : Z) :
  (match ca with Some c => Some c | None => option_map answer (currentQuestion e) end)
    = Some expected ->
  parseInt (sanitizeInput i) = Some u ->
  validators_isValidNumber (validators_sanitizeInput raw) = true ->
  parseInt (validators_sanitizeInput raw) = Some v ->
  (valid (validateAnswer e i ca) = true /\
   correct (validateAnswer e i ca) = (u =? expected) /\
   exists isClose, close (validateAnswer e i ca) = Some isClose /\
     (isClose = true <-> 0 < Z.abs (u - expected) <= 2) /\
     ~ (correct (validateAnswer e i ca) = true /\ isClose = true)) /\
  (vr_valid (validators_validateAnswer raw expected) = true /\
   vr_correct (validators_validateAnswer raw expected) = (v =? expected) /\
   exists isClose, vr_close (validators_validateAnswer raw expected) = Some isClose /\
     (isClose = true <-> 0 < Z.abs (v - expected) <= 2) /\
     ~ (vr_correct (validators_validateAnswer raw expected) = true /\ isClose = true)).
Proof.
  intros Hexp Hu Hvalid Hv. split.
  - unfold validateAnswer. rewrite Hexp, Hu. cbn.
    split; [reflexivity|]. split; [reflexivity|].
    eexists; split; [reflexivity|]. split.
    + apply close_iff.
    + apply not_correct_and_close.
  - unfold validators_validateAnswer. rewrite Hvalid, Hv. cbn.
    split; [reflexivity|]. split; [reflexivity|].
    eexists; split; [reflexivity|]. split.
    + apply close_iff.
    + apply not_correct_and_close.
Qed.

(** ** C4 *)

Lemma addToRecent_length (id : string) (r : list string) :
  (length r <= maxRecentQuestions)%nat ->
  (length (addToRecentQuestions id r) <= maxRecentQuestions)%nat.
Proof.
  unfold addToRecentQuestions, maxRecentQuestions. intros H.
  rewrite length_app; simpl.
  destruct (Nat.ltb_spec 3 (length r + 1)) as [Hlt|Hge].
  - destruct r; simpl in *; [lia|]. rewrite length_app. simpl. lia.
  - rewrite length_app. simpl. lia.
Qed.

Lemma addToRecent_last (id : string) (r : list string) :
  last (addToRecentQuestions id r) "" = id.
Proof.
  unfold addToRecentQuestions.
  destruct r as [|x r]; [reflexivity|].
  destruct (maxRecentQuestions <? length ((x :: r) ++ [id]))%nat.
  - apply last_last.
  - apply last_last.
Qed.

(** Three pushes of the same id fill a window of at most three entries. *)
Lemma addToRecent_three (t : string) (r : list string) :
  (length r <= maxRecentQuestions)%nat ->
  In t (addToRecentQuestions t (addToRecentQuestions t (addToRecentQuestions t r))) /\
  forall w, In w (addToRecentQuestions t (addToRecentQuestions t (addToRecentQuestions t r)))
            -> w = t.
Proof.
  unfold maxRecentQuestions. intros H.
  destruct r as [|x [|y [|z [|v r]]]]; simpl in H; try lia;
    vm_compute; (split; [tauto|intros w Hw; intuition congruence]).
Qed.

(** A call that does not fall back records a template of the candidate
    pool and keeps the bank and the tier. *)
Lemma getNextQuestion_step (e e' : engine) (q : question) (k : nat) (a b now : Z)
    (pool : list template) :
  bank_lookup (bank_in_use e) (currentDifficulty e) = Some pool -> pool <> [] ->
  getNextQuestion e k a b now = Some (e', q) ->
  bank_in_use e' = bank_in_use e /\ currentDifficulty e' = currentDifficulty e /\
  exists tmpl, In tmpl (candidatePool pool (recentQuestions e)) /\
    recentQuestions e' = addToRecentQuestions (t_id tmpl) (recentQuestions e).
Proof.
  intros Hpool Hne Hget. unfold getNextQuestion in Hget. cbn [currentDifficulty recentQuestions] in Hget.
  rewrite Hpool in Hget. destruct pool as [|t0 pool']; [congruence|].
  destruct (getRandomElement _ k) as [tmpl|] eqn:Hr; [|discriminate].
  injection Hget as <- <-. cbn. split; [reflexivity|]. split; [reflexivity|].
  exists tmpl. split; [|reflexivity].
  unfold getRandomElement in Hr.
  destruct (candidatePool _ _); [discriminate|]. eapply nth_error_In; exact Hr.
Qed.

(** With a window holding only [t], a pool with another id never yields [t]. *)
Lemma candidatePool_avoids (pool : list template) (recent : list string)
    (t : string) (t2 : template) :
  In t recent -> (forall w, In w recent -> w = t) ->
  In t2 pool -> t_id t2 <> t ->
  forall tmpl, In tmpl (candidatePool pool recent) -> t_id tmpl <> t.
Proof.
  intros Hin Hall H2 Hneq tmpl Htmpl.
  unfold candidatePool in Htmpl.
  set (avail := filter _ pool) in Htmpl.
  assert (Havail : In t2 avail).
  { apply filter_In. split; [exact H2|].
    apply negb_true_iff, not_true_iff_false. intros Hex.
    apply existsb_exists in Hex as [w [Hw Heq]].
    apply String.eqb_eq in Heq. apply Hneq. rewrite Heq. apply Hall. exact Hw. }
  destruct (Nat.ltb_spec 0 (length avail)) as [_|Hz].
  - apply filter_In in Htmpl as [_ Hnot]. intros Heq.
    apply negb_true_iff in Hnot. rewrite <- not_true_iff_false in Hnot.
    apply Hnot, existsb_exists. exists t. split; [exact Hin|].
    apply String.eqb_eq. exact Heq.
  - destruct avail; [contradiction|simpl in Hz; lia].
Qed.

(** Claim C4: from any engine state whose window holds at most three ids,
    in a run of four or more consecutive successful [getNextQuestion]
    calls at a tier whose pool has two templates with different ids, the
    recorded template ids are not all the same. *)
Theorem getNextQuestion_no_four_repeats (e : engine) (pool : list template)
    (t1 t2 : template) (draws : list (nat * Z * Z * Z)) (states : list engine) :
  (length (recentQuestions e) <= maxRecentQuestions)%nat ->
  bank_lookup (bank_in_use e) (currentDifficulty e) = Some pool ->
  In t1 pool -> In t2 pool -> t_id t1 <> t_id t2 ->
  getNextQuestion_run e draws = Some states ->
  (4 <= length draws)%nat ->
  exists s1 s2, In s1 states /\ In s2 states /\ lastRecent s1 <> lastRecent s2.
Proof.
  intros Hlen Hpool H1 H2 Hneq Hrun Hdraws.
  assert (Hne : pool <> []) by (intros ->; contradiction).
  destruct draws as [|[[[k1 a1] b1] n1] [|[[[k2 a2] b2] n2] [|[[[k3 a3] b3] n3]
    [|[[[k4 a4] b4] n4] rest]]]]; simpl in Hdraws; try lia.
  simpl in Hrun.
  destruct (getNextQuestion e k1 a1 b1 n1) as [[s1 q1]|] eqn:G1; [|discriminate].
  destruct (getNextQuestion s1 k2 a2 b2 n2) as [[s2 q2]|] eqn:G2; [|discriminate].
  destruct (getNextQuestion s2 k3 a3 b3 n3) as [[s3 q3]|] eqn:G3; [|discriminate].
  destruct (getNextQuestion s3 k4 a4 b4 n4) as [[s4 q4]|] eqn:G4; [|discriminate].
  destruct (getNextQuestion_run s4 rest) as [tl'|]; [|discriminate].
  simpl in Hrun. injection Hrun as <-.
  destruct (getNextQuestion_step _ _ _ _ _ _ _ _ Hpool Hne G1)
    as [B1 [D1 [u1 [_ R1]]]].
  rewrite <- B1, <- D1 in Hpool.
  destruct (getNextQuestion_step _ _ _ _ _ _ _ _ Hpool Hne G2)
    as [B2 [D2 [u2 [_ R2]]]].
  rewrite <- B2, <- D2 in Hpool.
  destruct (getNextQuestion_step _ _ _ _ _ _ _ _ Hpool Hne G3)
    as [B3 [D3 [u3 [_ R3]]]].
  rewrite <- B3, <- D3 in Hpool.
  destruct (getNextQuestion_step _ _ _ _ _ _ _ _ Hpool Hne G4)
    as [_ [_ [u4 [C4 R4]]]].
  set (t := lastRecent s1).
  assert (L1 : t_id u1 = t) by (unfold t, lastRecent; rewrite R1, addToRecent_last; reflexivity).
  destruct (String.eqb_spec (lastRecent s2) t) as [E2|E2];
    [|exists s2, s1; simpl; tauto].
  destruct (String.eqb_spec (lastRecent s3) t) as [E3|E3];
    [|exists s3, s1; simpl; tauto].
  exists s4, s1. split; [simpl; tauto|]. split; [simpl; tauto|].
  unfold lastRecent at 1. rewrite R4, addToRecent_last. fold t.
  unfold lastRecent in E2, E3.
  rewrite R2, addToRecent_last in E2. rewrite R3, addToRecent_last in E3.
  rewrite R3, R2, R1, E2, E3, L1 in C4.
  destruct (addToRecent_three t _ Hlen) as [Hin Hall].
  destruct (String.eqb_spec (t_id t1) t) as [Et1|Et1].
  - eapply candidatePool_avoids; [exact Hin|exact Hall|exact H2| |exact C4].
    intros Et2. apply Hneq. congruence.
  - eapply candidatePool_avoids; [exact Hin|exact Hall|exact H1|exact Et1|exact C4].
Qed.

(** ** C5 *)

(** Claim C5 (counterexample): [setDifficulty("Hard")] on an engine at
    tier [hard] does not select [hard]: the exact-match check fails, the
    tier becomes [easy] and the window keeps its entry. *)
Lemma setDifficulty_Hard_counterexample :
  currentDifficulty (setDifficulty "Hard" (mkEngine None "hard" ["add_hard_001"] None))
    = "easy" /\
  currentDifficulty (setDifficulty "Hard" (mkEngine None "hard" ["add_hard_001"] None))
    <> "hard" /\
  recentQuestions (setDifficulty "Hard" (mkEngine None "hard" ["add_hard_001"] None))
    = ["add_hard_001"].
Proof. split; [reflexivity|]. split; [discriminate|reflexivity]. Qed.

(** Claim C5 (amended): exactly the lower-case names [easy], [medium] and
    [hard] set that tier and clear the window; any other string (another
    letter casing included) sets the tier to [easy].  The bank and the
    current question are untouched. *)
Theorem setDifficulty_spec (level : string) (e : engine) :
  (In level validLevels ->
   currentDifficulty (setDifficulty level e) = level /\
   recentQuestions (setDifficulty level e) = []) /\
  (~ In level validLevels -> currentDifficulty (setDifficulty level e) = "easy") /\
  questionBank (setDifficulty level e) = questionBank e /\
  currentQuestion (setDifficulty level e) = currentQuestion e.
Proof.
  unfold setDifficulty.
  destruct (existsb (String.eqb level) validLevels) eqn:Hex.
  - assert (Hin : In level validLevels).
    { apply existsb_exists in Hex as [w [Hw Hw']].
      apply String.eqb_eq in Hw'. subst w. exact Hw. }
    simpl. split; [intros _; split; reflexivity|].
    split; [intros Hn; contradiction|]. split; reflexivity.
  - assert (Hnin : ~ In level validLevels).
    { intros Hin. rewrite <- not_true_iff_false in Hex. apply Hex.
      apply existsb_exists. exists level. split; [exact Hin|apply String.eqb_refl]. }
    simpl. split; [intros Hin; contradiction|].
    split; [intros _; reflexivity|]. split; reflexivity.
Qed.

(** ** C6 *)

(** Claim C6 (evaluation at the failing input ["1-5"]): the engine's
    sanitizer keeps the inner minus sign, so [parseInt] reads [1]; the
    sanitizer of validators.js gives ["15"] there, but keeps a minus sign
    in ["-1-2"], which it turns into ["-12"]. *)
Theorem sanitizeInput_inner_minus_kept :
  sanitizeInput (InStr "1-5") = "1-5" /\
  userAnswer (validateAnswer constructor (InStr "1-5") (Some 15)) = Some 1 /\
  validators_sanitizeInput (Some "1-5") = "15" /\
  validators_sanitizeInput (Some "-1-2") = "-12".
Proof. repeat split; reflexivity. Qed.

(** ** C7 *)

(** Claim C7 (evaluation at the failing input): with an empty [easy] pool,
    [getNextQuestion] returns the fallback question but does not store it:
    the engine's current question stays the previous one, and validating
    the fallback's correct answer [7] checks it against that old answer. *)
Theorem getNextQuestion_fallback_not_stored :
  let old := generateQuestion constructor 0
    (mk_template "add_easy_001" "equation" "addition" "{a} + {b} = ?" 0 10 true None) 4 5 in
  let e := mkEngine (Some [("easy", [])]) "easy" [] (Some old) in
  match getNextQuestion e 0 3 4 100 with
  | Some (e', q) =>
      questionText q = "3 + 4 = ?" /\ answer q = 7 /\
      currentQuestion e' = Some old /\ currentQuestion e' <> Some q /\
      correct (validateAnswer e' (InStr "7") None) = false
  | None => False
  end.
Proof.
  vm_compute. repeat split; try reflexivity. discriminate.
Qed.

(** ** Witnesses *)

(** C1 at the template [sub_easy_001] with draws [3] and [7]: the text is
    ["7 - 3 = ?"]. *)
Lemma generateQuestion_subtraction_nonneg_witness :
  t_operation (mk_template "sub_easy_001" "equation" "subtraction" "{a} - {b} = ?"
                 0 10 true (Some "bananas")) = "subtraction" /\
  t_template (mk_template "sub_easy_001" "equation" "subtraction" "{a} - {b} = ?"
                0 10 true (Some "bananas")) = "" ++ "{a}" ++ " - " ++ "{b}" ++ " = ?" /\
  has_no_brace "" = true /\ has_no_brace " - " = true /\
  questionText (generateQuestion constructor 100
    (mk_template "sub_easy_001" "equation" "subtraction" "{a} - {b} = ?"
       0 10 true (Some "bananas")) 3 7) = "7 - 3 = ?" /\
  ((answer (generateQuestion constructor 100
      (mk_template "sub_easy_001" "equation" "subtraction" "{a} - {b} = ?"
         0 10 true (Some "bananas")) 3 7) = Z.max 3 7 - Z.min 3 7) /\
   (0 <= answer (generateQuestion constructor 100
      (mk_template "sub_easy_001" "equation" "subtraction" "{a} - {b} = ?"
         0 10 true (Some "bananas")) 3 7)) /\
   (questionText (generateQuestion constructor 100
      (mk_template "sub_easy_001" "equation" "subtraction" "{a} - {b} = ?"
         0 10 true (Some "bananas")) 3 7)
    = "" ++ js_number_toString (Z.max 3 7) ++ " - "
         ++ js_number_toString (Z.min 3 7) ++ " = ?")).
Proof.
  split; [reflexivity|]. split; [reflexivity|].
  split; [reflexivity|]. split; [reflexivity|]. split; [vm_compute; reflexivity|].
  apply (generateQuestion_subtraction_nonneg constructor 100 _ 3 7 "" " - " " = ?");
    reflexivity.
Defined.

(** C2 with the engine input [" 12abc"] against [12] and the validators.js
    input ["13x"] against [12]. *)
Lemma validateAnswer_correct_close_witness :
  (match Some 12 with Some c => Some c
   | None => option_map answer (currentQuestion constructor) end) = Some 12 /\
  parseInt (sanitizeInput (InStr " 12abc")) = Some 12 /\
  validators_isValidNumber (validators_sanitizeInput (Some "13x")) = true /\
  parseInt (validators_sanitizeInput (Some "13x")) = Some 13 /\
  ((valid (validateAnswer constructor (InStr " 12abc") (Some 12)) = true /\
    correct (validateAnswer constructor (InStr " 12abc") (Some 12)) = (12 =? 12) /\
    exists isClose, close (validateAnswer constructor (InStr " 12abc") (Some 12)) = Some isClose /\
      (isClose = true <-> 0 < Z.abs (12 - 12) <= 2) /\
      ~ (correct (validateAnswer constructor (InStr " 12abc") (Some 12)) = true /\ isClose = true)) /\
   (vr_valid (validators_validateAnswer (Some "13x") 12) = true /\
    vr_correct (validators_validateAnswer (Some "13x") 12) = (13 =? 12) /\
    exists isClose, vr_close (validators_validateAnswer (Some "13x") 12) = Some isClose /\
      (isClose = true <-> 0 < Z.abs (13 - 12) <= 2) /\
      ~ (vr_correct (validators_validateAnswer (Some "13x") 12) = true /\ isClose = true))).
Proof.
  split; [reflexivity|]. split; [reflexivity|].
  split; [reflexivity|]. split; [reflexivity|].
  apply (validateAnswer_correct_close constructor (InStr " 12abc") (Some 12) (Some "13x") 12 12 13);
    reflexivity.
Defined.

(** C4 on four draws at index [0] from the default [easy] pool. *)
Lemma getNextQuestion_no_four_repeats_witness :
  match getNextQuestion_run constructor
          [(0%nat, 1, 2, 10); (0%nat, 3, 4, 11); (0%nat, 5, 6, 12); (0%nat, 7, 8, 13)] with
  | Some states =>
      (length (recentQuestions constructor) <= maxRecentQuestions)%nat /\
      (exists s1 s2, In s1 states /\ In s2 states /\ lastRecent s1 <> lastRecent s2)
  | None => False
  end.
Proof.
  destruct (getNextQuestion_run constructor _) as [states|] eqn:Hrun;
    [|vm_compute in Hrun; discriminate].
  split; [cbv; lia|].
  apply (getNextQuestion_no_four_repeats constructor
           (mk_template "add_easy_001" "equation" "addition" "{a} + {b} = ?" 0 10 true (Some "bananas")
            :: mk_template "add_easy_002" "word-problem" "addition"
                 "The gorilla found {a} bananas. Then found {b} more. How many total?" 0 10 true (Some "bananas")
            :: mk_template "sub_easy_001" "equation" "subtraction" "{a} - {b} = ?" 0 10 true (Some "bananas")
            :: mk_template "sub_easy_002" "word-problem" "subtraction"
                 "The gorilla had {a} bananas and ate {b}. How many are left?" 0 10 true (Some "bananas")
            :: [])
           (mk_template "add_easy_001" "equation" "addition" "{a} + {b} = ?" 0 10 true (Some "bananas"))
           (mk_template "sub_easy_001" "equation" "subtraction" "{a} - {b} = ?" 0 10 true (Some "bananas"))
           [(0%nat, 1, 2, 10); (0%nat, 3, 4, 11); (0%nat, 5, 6, 12); (0%nat, 7, 8, 13)] states).
  - cbv; lia.
  - reflexivity.
  - simpl; left; reflexivity.
  - simpl; right; right; left; reflexivity.
  - simpl; discriminate.
  - exact Hrun.
  - simpl; lia.
Defined.

(** The run above draws [add_easy_001], then three other templates. *)
Example getNextQuestion_run_default_easy :
  option_map (map lastRecent)
    (getNextQuestion_run constructor
       [(0%nat, 1, 2, 10); (0%nat, 3, 4, 11); (0%nat, 5, 6, 12); (0%nat, 7, 8, 13)])
  = Some ["add_easy_001"; "add_easy_002"; "sub_easy_001"; "sub_easy_002"].
Proof. vm_compute. reflexivity. Qed.

(** A two-template pool drawn always at index [0]: once both ids are in
    the window the whole pool is used again. *)
Example getNextQuestion_run_two_templates :
  option_map (map lastRecent)
    (getNextQuestion_run
       (mkEngine (Some [("easy",
          [mk_template "x" "equation" "addition" "{a} + {b} = ?" 0 10 false None;
           mk_template "y" "equation" "addition" "{a} + {b} = ?" 0 10 false None])])
          "easy" [] None)
       [(0%nat, 1, 2, 10); (0%nat, 3, 4, 11); (0%nat, 5, 6, 12); (0%nat, 7, 8, 13)])
  = Some ["x"; "y"; "x"; "x"].
Proof. vm_compute. reflexivity. Qed.

End EngineFacts.

(** * Properties of the progress model *)
Module ProgressFacts.
Import ProgressManager.

(** ** C3 *)

(** Claim C3: the accuracy is [0] when no answer is recorded and
    [correct / total * 100] otherwise; the stars are [3] from [95], [2] on
    [[80, 95)], [1] on [[60, 80)] and [0] below, so no recorded answer gives
    [0] stars. *)
Theorem accuracy_stars_thresholds (m : manager) :
  (totalAnswers (sessionData m) = 0 ->
   calculateAccuracy m = 0%Q /\ calculateStars m = 0) /\
  (totalAnswers (sessionData m) <> 0 ->
   calculateAccuracy m
   = (inject_Z (correctAnswers (sessionData m))
      / inject_Z (totalAnswers (sessionData m)) * 100)%Q) /\
  ((95 <= calculateAccuracy m)%Q -> calculateStars m = 3) /\
  ((80 <= calculateAccuracy m)%Q -> (calculateAccuracy m < 95)%Q -> calculateStars m = 2) /\
  ((60 <= calculateAccuracy m)%Q -> (calculateAccuracy m < 80)%Q -> calculateStars m = 1) /\
  ((calculateAccuracy m < 60)%Q -> calculateStars m = 0).
Proof.
  assert (Hs : forall lo, Qle_bool lo (calculateAccuracy m) = true <-> (lo <= calculateAccuracy m)%Q)
    by (intros; apply Qle_bool_iff).
  unfold calculateStars.
  split; [|split; [|split; [|split; [|split]]]].
  - intros H0. unfold calculateAccuracy. rewrite H0. split; reflexivity.
  - intros H0. unfold calculateAccuracy. apply Z.eqb_neq in H0. rewrite H0. reflexivity.
  - intros H. apply Hs in H. rewrite H. reflexivity.
  - intros H1 H2. apply Hs in H1.
    destruct (Qle_bool 95 _) eqn:E; [apply Hs in E; apply Qlt_not_le in H2; contradiction|].
    rewrite H1. reflexivity.
  - intros H1 H2. apply Hs in H1.
    destruct (Qle_bool 95 _) eqn:E;
      [apply Hs in E; apply Qlt_not_le in H2; exfalso; apply H2; eapply Qle_trans; [|exact E]; discriminate|].
    destruct (Qle_bool 80 _) eqn:E'; [apply Hs in E'; apply Qlt_not_le in H2; contradiction|].
    rewrite H1. reflexivity.
  - intros H. apply Qlt_not_le in H.
    destruct (Qle_bool 95 _) eqn:E;
      [apply Hs in E; exfalso; apply H; eapply Qle_trans; [|exact E]; discriminate|].
    destruct (Qle_bool 80 _) eqn:E';
      [apply Hs in E'; exfalso; apply H; eapply Qle_trans; [|exact E']; discriminate|].
    destruct (Qle_bool 60 _) eqn:E''; [apply Hs in E''; contradiction|].
    reflexivity.
Qed.

(** ** C8 *)

Lemma get_tier_some {A} (d : string) (tiers : per_tier A) (v : A) :
  get_tier d tiers = Some v -> d = "easy" \/ d = "medium" \/ d = "hard".
Proof.
  unfold get_tier.
  destruct (String.eqb_spec d "easy"); [auto|].
  destruct (String.eqb_spec d "medium"); [auto|].
  destruct (String.eqb_spec d "hard"); [auto|discriminate].
Qed.

Lemma get_set_tier {A} (d t : string) (v hd : A) (tiers : per_tier A) :
  get_tier d tiers = Some hd ->
  get_tier t (set_tier d v tiers) = if String.eqb t d then Some v else get_tier t tiers.
Proof.
  intros H. apply get_tier_some in H as [-> | [-> | ->]];
  unfold get_tier; cbn;
  (destruct (String.eqb_spec t "easy"); [subst; reflexivity|]);
  (destruct (String.eqb_spec t "medium"); [subst; reflexivity|]);
  (destruct (String.eqb_spec t "hard"); [subst; reflexivity|]);
  repeat match goal with
         | H : t <> ?k |- _ => apply String.eqb_neq in H; rewrite H; clear H
         end; reflexivity.
Qed.

Section HighScores.
Variable json_stringify : stored_data -> string.
Variable json_parse : string -> option parsed.

Lemma completeSession_highScores (now : Z) (ok : bool) (m : manager) :
  highScores (persistentData (fst (completeSession json_stringify now ok m)))
  = match get_tier (difficulty (sessionData m)) (highScores (persistentData m)) with
    | Some h => if h <? score (sessionData m)
                then set_tier (difficulty (sessionData m)) (score (sessionData m))
                       (highScores (persistentData m))
                else highScores (persistentData m)
    | None => highScores (persistentData m)
    end.
Proof.
  unfold completeSession, saveProgress. cbn.
  destruct (get_tier _ (levelsCompleted _)); [destruct ok|]; reflexivity.
Qed.

Lemma completeSession_high_score_at (now : Z) (ok : bool) (m : manager) (t : string) (h : Z) :
  get_tier t (highScores (persistentData m)) = Some h ->
  get_tier t (highScores (persistentData (fst (completeSession json_stringify now ok m))))
  = if String.eqb t (difficulty (sessionData m))
    then Some (Z.max h (score (sessionData m))) else Some h.
Proof.
  intros Hh. rewrite completeSession_highScores.
  destruct (String.eqb_spec t (difficulty (sessionData m))) as [Et|Et].
  - rewrite <- Et, Hh.
    destruct (Z.ltb_spec h (score (sessionData m))).
    + rewrite (get_set_tier _ _ _ h) by exact Hh. rewrite String.eqb_refl.
      f_equal. lia.
    + rewrite Hh. f_equal. lia.
  - destruct (get_tier (difficulty (sessionData m)) (highScores (persistentData m)))
      as [hd|] eqn:Hd; [|exact Hh].
    destruct (_ <? _); [|exact Hh].
    rewrite (get_set_tier _ _ _ hd) by exact Hd.
    apply String.eqb_neq in Et. rewrite Et. exact Hh.
Qed.

Lemma exec_high_score_mono (o : op) (m : manager) (t : string) (h : Z) :
  keeps_high_scores o = true ->
  get_tier t (highScores (persistentData m)) = Some h ->
  exists h', get_tier t (highScores (persistentData (exec json_stringify json_parse o m)))
             = Some h' /\ h <= h'.
Proof.
  intros Hk Hh. destruct o; cbn in Hk; try discriminate.
  7: { cbn [exec]. rewrite (completeSession_high_score_at _ _ _ _ h) by exact Hh.
       destruct (String.eqb _ _); eexists; split; [reflexivity| lia |reflexivity| lia]. }
  all: exists h; split; [|lia]; rewrite <- Hh; cbn [exec];
    unfold startSession, incrementScore, recordAnswer, addBananas, nextQuestion,
      updateElapsedTime, resetSession, updatePreferences, saveProgress, set_session,
      set_persistent;
    repeat match goal with
           | |- context [if ?b then _ else _] => destruct b
           end; reflexivity.
Qed.

End HighScores.

(** Claim C8: [completeSession] sets the high score of the session's tier
    to the maximum of the stored one and the session score; along any
    sequence of calls that does not reload or wipe the record, the stored
    high score of every tier never decreases. *)
Theorem completeSession_high_score_max
    (json_stringify : stored_data -> string) (json_parse : string -> option parsed)
    (m : manager) (ops : list op) (t : string) (h : Z) :
  get_tier t (highScores (persistentData m)) = Some h ->
  forallb keeps_high_scores ops = true ->
  (forall now ok, difficulty (sessionData m) = t ->
   get_tier t (highScores (persistentData (fst (completeSession json_stringify now ok m))))
   = Some (Z.max h (score (sessionData m)))) /\
  (exists h', get_tier t (highScores (persistentData
                (exec_all json_stringify json_parse ops m))) = Some h' /\ h <= h').
Proof.
  intros Hh Hops. split.
  - intros now ok Hd. rewrite (completeSession_high_score_at _ _ _ _ _ h) by exact Hh.
    rewrite Hd, String.eqb_refl. reflexivity.
  - unfold exec_all. revert m h Hh.
    induction ops as [|o ops IH]; intros m h Hh; cbn [fold_left].
    + exists h. split; [exact Hh|lia].
    + cbn [forallb] in Hops. apply andb_prop in Hops as [Ho Hops].
      destruct (exec_high_score_mono json_stringify json_parse o m t h Ho Hh) as [h1 [H1 L1]].
      destruct (IH Hops _ _ H1) as [h2 [H2 L2]].
      exists h2. split; [exact H2|lia].
Qed.

(** ** C9 *)

Lemma loadProgress_unparsable (json_parse : string -> option parsed) (now : Z)
    (rnd saved : string) (m : manager) :
  storage m = Some saved -> json_parse saved = None ->
  loadProgress json_parse now rnd m = (m, false).
Proof.
  intros Hs Hp. unfold loadProgress. rewrite Hs.
  destruct saved as [|c rest]; [reflexivity|]. rewrite Hp. reflexivity.
Qed.

(** Claim C9: when the stored entry is not valid JSON, [loadProgress]
    returns [false] and leaves the manager as it was, as it does when no
    entry is stored; on a new manager the persistent record stays the
    default one. *)
Theorem loadProgress_corrupted_entry (json_parse : string -> option parsed)
    (saved : string) (now0 now : Z) (rnd0 rnd : string) :
  json_parse saved = None ->
  loadProgress json_parse now rnd (constructor now0 rnd0 (Some saved))
    = (constructor now0 rnd0 (Some saved), false) /\
  persistentData (fst (loadProgress json_parse now rnd (constructor now0 rnd0 (Some saved))))
    = getDefaultPersistentData now0 rnd0 /\
  loadProgress json_parse now rnd (constructor now0 rnd0 None)
    = (constructor now0 rnd0 None, false) /\
  (forall m, storage m = Some saved -> loadProgress json_parse now rnd m = (m, false)).
Proof.
  intros Hp.
  assert (H0 : loadProgress json_parse now rnd (constructor now0 rnd0 (Some saved))
               = (constructor now0 rnd0 (Some saved), false))
    by (apply (loadProgress_unparsable _ _ _ saved); [reflexivity|exact Hp]).
  split; [exact H0|]. split; [rewrite H0; reflexivity|].
  split; [reflexivity|].
  intros m Hs. apply (loadProgress_unparsable _ _ _ saved); assumption.
Qed.

(** ** C10 *)

Section Counters.
Variable json_stringify : stored_data -> string.
Variable json_parse : string -> option parsed.

Lemma exec_resets (o : op) (m : manager) :
  resets_session o = true ->
  counters (sessionData (exec json_stringify json_parse o m)) = (0, 0, 0).
Proof. destruct o; cbn; intros H; try discriminate; reflexivity. Qed.

Lemma exec_other_counters (o : op) (m : manager) :
  resets_session o = false -> is_record_answer o = false ->
  counters (sessionData (exec json_stringify json_parse o m)) = counters (sessionData m).
Proof.
  destruct o; cbn [resets_session is_record_answer]; intros H1 H2;
    try discriminate; cbn [exec];
    unfold incrementScore, addBananas, nextQuestion, updateElapsedTime,
      completeSession, loadProgress, updatePreferences, saveProgress,
      set_session, set_persistent;
    cbn;
    repeat match goal with
           | |- context [match ?x with _ => _ end] => destruct x
           end; reflexivity.
Qed.

Lemma recordAnswer_counters (b : bool) (m : manager) :
  totalAnswers (sessionData (recordAnswer b m)) = totalAnswers (sessionData m) + 1 /\
  correctAnswers (sessionData (recordAnswer b m))
    = correctAnswers (sessionData m) + (if b then 1 else 0) /\
  incorrectAnswers (sessionData (recordAnswer b m))
    = incorrectAnswers (sessionData m) + (if b then 0 else 1).
Proof. destruct b; cbn; repeat split; lia. Qed.

Lemma exec_invariant (o : op) (m : manager) :
  totalAnswers (sessionData m) = correctAnswers (sessionData m) + incorrectAnswers (sessionData m) ->
  totalAnswers (sessionData (exec json_stringify json_parse o m))
  = correctAnswers (sessionData (exec json_stringify json_parse o m))
    + incorrectAnswers (sessionData (exec json_stringify json_parse o m)).
Proof.
  intros Hinv.
  destruct (resets_session o) eqn:Hr.
  - pose proof (exec_resets o m Hr) as H. unfold counters in H.
    injection H as -> -> ->. reflexivity.
  - destruct o; try discriminate.
    all: try (pose proof (exec_other_counters _ m Hr eq_refl) as H;
              unfold counters in H; injection H as E1 E2 E3;
              cbn [exec]; rewrite E1, E2, E3; exact Hinv).
    all: try (cbn; exact Hinv).
    cbn [exec].
    match goal with
    | |- context [recordAnswer ?b _] =>
        destruct (recordAnswer_counters b m) as [T [C I]];
        rewrite T, C, I; destruct b; lia
    end.
Qed.

End Counters.

(** Claim C10: a new or reset session has all three answer counters at
    [0]; [recordAnswer] adds one to [totalAnswers] and to exactly one of
    [correctAnswers] and [incorrectAnswers]; no other call changes them;
    hence [totalAnswers = correctAnswers + incorrectAnswers] holds after
    any sequence of calls that starts where it holds. *)
Theorem session_counters_invariant
    (json_stringify : stored_data -> string) (json_parse : string -> option parsed) :
  (forall now rnd st, counters (sessionData (constructor now rnd st)) = (0, 0, 0)) /\
  (forall o m, resets_session o = true ->
   counters (sessionData (exec json_stringify json_parse o m)) = (0, 0, 0)) /\
  (forall b m,
   totalAnswers (sessionData (recordAnswer b m)) = totalAnswers (sessionData m) + 1 /\
   correctAnswers (sessionData (recordAnswer b m))
     = correctAnswers (sessionData m) + (if b then 1 else 0) /\
   incorrectAnswers (sessionData (recordAnswer b m))
     = incorrectAnswers (sessionData m) + (if b then 0 else 1)) /\
  (forall o m, resets_session o = false -> is_record_answer o = false ->
   counters (sessionData (exec json_stringify json_parse o m)) = counters (sessionData m)) /\
  (forall ops m,
   totalAnswers (sessionData m) = correctAnswers (sessionData m) + incorrectAnswers (sessionData m) ->
   let m' := exec_all json_stringify json_parse ops m in
   totalAnswers (sessionData m') = correctAnswers (sessionData m') + incorrectAnswers (sessionData m')).
Proof.
  split; [reflexivity|].
  split; [apply exec_resets|].
  split; [apply recordAnswer_counters|].
  split; [apply exec_other_counters|].
  intros ops. unfold exec_all. induction ops as [|o ops IH]; intros m Hm; cbn [fold_left].
  - exact Hm.
  - apply IH. apply exec_invariant. exact Hm.
Qed.

(** ** Witnesses and examples *)

(** C3 at the spec's sample points: two of three answers give about
    66.67 and one star; nineteen of twenty give [95] and three stars. *)
Example accuracy_two_of_three :
  calculateAccuracy (recordAnswer false (recordAnswer true (recordAnswer true
    (constructor 0 "r" None)))) == (200 # 3)%Q /\
  calculateStars (recordAnswer false (recordAnswer true (recordAnswer true
    (constructor 0 "r" None)))) = 1.
Proof. split; reflexivity. Qed.

Example stars_at_95 :
  calculateStars (mkManager (mkSession "easy" 0 5 0 19 1 20 0 0 0 0)
    (getDefaultPersistentData 0 "r") None) = 3 /\
  calculateStars (mkManager (mkSession "easy" 0 5 0 0 0 0 0 0 0 0)
    (getDefaultPersistentData 0 "r") None) = 0.
Proof. split; reflexivity. Qed.

(** C8 on two [easy] sessions scoring [500] then [300]. *)
Lemma completeSession_high_score_max_witness :
  get_tier "easy" (highScores (persistentData (constructor 0 "k3j9x0a" None))) = Some 0 /\
  forallb keeps_high_scores
    [StartSession "easy" 5 1; IncrementScore 500; CompleteSession 2 true;
     StartSession "easy" 5 3; IncrementScore 300; CompleteSession 4 true] = true /\
  get_tier "easy" (highScores (persistentData
    (exec_all (fun _ => "{}") (fun _ => None)
       [StartSession "easy" 5 1; IncrementScore 500; CompleteSession 2 true;
        StartSession "easy" 5 3; IncrementScore 300; CompleteSession 4 true]
       (constructor 0 "k3j9x0a" None)))) = Some 500 /\
  ((forall now ok, difficulty (sessionData (constructor 0 "k3j9x0a" None)) = "easy" ->
    get_tier "easy" (highScores (persistentData (fst (completeSession (fun _ => "{}") now ok
      (constructor 0 "k3j9x0a" None)))))
    = Some (Z.max 0 (score (sessionData (constructor 0 "k3j9x0a" None))))) /\
   (exists h', get_tier "easy" (highScores (persistentData
      (exec_all (fun _ => "{}") (fun _ => None)
         [StartSession "easy" 5 1; IncrementScore 500; CompleteSession 2 true;
          StartSession "easy" 5 3; IncrementScore 300; CompleteSession 4 true]
         (constructor 0 "k3j9x0a" None)))) = Some h' /\ 0 <= h')).
Proof.
  split; [reflexivity|]. split; [reflexivity|]. split; [vm_compute; reflexivity|].
  apply (completeSession_high_score_max (fun _ => "{}") (fun _ => None)
           (constructor 0 "k3j9x0a" None) _ "easy" 0); reflexivity.
Defined.

(** C9 with a truncated entry that no parser accepts. *)
Lemma loadProgress_corrupted_entry_witness :
  (fun _ : string => @None parsed) "{persistent:" = None /\
  loadProgress (fun _ => None) 5 "r" (constructor 0 "k3j9x0a" (Some "{persistent:"))
    = (constructor 0 "k3j9x0a" (Some "{persistent:"), false) /\
  persistentData (fst (loadProgress (fun _ => None) 5 "r"
    (constructor 0 "k3j9x0a" (Some "{persistent:"))))
    = getDefaultPersistentData 0 "k3j9x0a" /\
  loadProgress (fun _ => None) 5 "r" (constructor 0 "k3j9x0a" None)
    = (constructor 0 "k3j9x0a" None, false) /\
  (forall m, storage m = Some "{persistent:" ->
   loadProgress (fun _ => None) 5 "r" m = (m, false)).
Proof.
  split; [reflexivity|].
  apply (loadProgress_corrupted_entry (fun _ => None) _ 0 5 "k3j9x0a" "r"); reflexivity.
Defined.

End ProgressFacts.
(** * Properties of the sanitizers and of answer checking *)
Module SanitizerFacts.
Import MathEngine Validators StringClasses.



Lemma all_chars_cons (f : ascii -> bool) (c : ascii) (s : string) :
  all_chars f (String c s) = f c && all_chars f s.
Proof. reflexivity. Qed.

Lemma keep_dm (s : string) : all_chars is_dm (keep_digits_and_minus s) = true.
Proof.
  induction s as [|c s IH]; [reflexivity|]. cbn [keep_digits_and_minus].
  destruct (is_digit c || is_minus c) eqn:E; [|exact IH].
  rewrite all_chars_cons, IH. unfold is_dm. rewrite E. reflexivity.
Qed.

Lemma keep_id (s : string) : all_chars is_dm s = true -> keep_digits_and_minus s = s.
Proof.
  induction s as [|c s IH]; [reflexivity|].
  rewrite all_chars_cons. intros H. apply andb_prop in H as [Hc Hs].
  unfold is_dm in Hc. cbn [keep_digits_and_minus]. rewrite Hc, (IH Hs). reflexivity.
Qed.

Lemma remove_minus_digits (s : string) :
  all_chars is_dm s = true -> all_chars is_digit (remove_minus s) = true.
Proof.
  induction s as [|c s IH]; [reflexivity|].
  rewrite all_chars_cons. intros H. apply andb_prop in H as [Hc Hs].
  cbn [remove_minus]. destruct (is_minus c) eqn:Em; [exact (IH Hs)|].
  rewrite all_chars_cons, IH by exact Hs. unfold is_dm in Hc. rewrite Em, orb_false_r in Hc.
  rewrite Hc. reflexivity.
Qed.

Lemma remove_minus_length (s : string) :
  (String.length (remove_minus s) <= String.length s)%nat.
Proof.
  induction s as [|c s IH]; [reflexivity|]. cbn [remove_minus].
  destruct (is_minus c); cbn [String.length]; lia.
Qed.

Lemma remove_minus_no_minus (s : string) :
  all_chars (fun c => negb (is_minus c)) s = true -> remove_minus s = s.
Proof.
  induction s as [|c s IH]; [reflexivity|].
  rewrite all_chars_cons. intros H. apply andb_prop in H as [Hc Hs].
  cbn [remove_minus]. apply negb_true_iff in Hc. rewrite Hc, IH by exact Hs. reflexivity.
Qed.

Lemma remove_minus_none (s : string) :
  (String.length s <= String.length (remove_minus s))%nat ->
  all_chars (fun c => negb (is_minus c)) s = true.
Proof.
  induction s as [|c s IH]; intros H; [reflexivity|].
  rewrite all_chars_cons. cbn [remove_minus String.length] in H.
  destruct (is_minus c) eqn:Em.
  - pose proof (remove_minus_length s). lia.
  - cbn [negb andb]. apply IH. cbn [String.length] in H. lia.
Qed.

(** Fewer than two minus signs after a leading one: none in the rest. *)
Lemma remove_minus_lt2 (s : string) :
  (String.length (String "-" s) - String.length (remove_minus (String "-" s)) < 2)%nat ->
  all_chars (fun c => negb (is_minus c)) s = true.
Proof.
  intros H. apply remove_minus_none.
  change (remove_minus (String "-" s)) with (remove_minus s) in H.
  cbn [String.length] in H. pose proof (remove_minus_length s). lia.
Qed.

Lemma digit_not_minus (s : string) :
  all_chars is_digit s = true -> all_chars (fun c => negb (is_minus c)) s = true.
Proof.
  induction s as [|c s IH]; [reflexivity|]. rewrite !all_chars_cons.
  intros H; apply andb_prop in H as [Hc Hs]. rewrite IH by exact Hs.
  unfold is_digit in Hc. unfold is_minus.
  destruct (Ascii.eqb_spec c "-"%char); [subst; discriminate Hc|reflexivity].
Qed.

Lemma digit_is_dm (s : string) : all_chars is_digit s = true -> all_chars is_dm s = true.
Proof.
  induction s as [|c s IH]; [reflexivity|]. rewrite !all_chars_cons.
  intros H; apply andb_prop in H as [Hc Hs]. rewrite (IH Hs). unfold is_dm. rewrite Hc. reflexivity.
Qed.

Lemma index_minus_spec (s : string) :
  match String.index 0 "-" s with
  | None => all_chars (fun c => negb (is_minus c)) s = true
  | Some O => exists s', s = String "-" s'
  | Some (S _) => True
  end.
Proof.
  induction s as [|b s IH]; [reflexivity|].
  change (String.index 0 "-" (String b s))
    with (if String.prefix "-" (String b s) then Some O
          else match String.index 0 "-" s with Some n => Some (S n) | None => None end).
  change (String.prefix "-" (String b s))
    with (if ascii_dec "-" b then String.prefix "" s else false).
  destruct (ascii_dec "-" b) as [<-|Hb].
  - destruct s; cbn; eexists; reflexivity.
  - destruct (String.index 0 "-" s) as [[|n]|]; [exact I|exact I|].
    rewrite all_chars_cons, IH. unfold is_minus.
    destruct (Ascii.eqb_spec b "-"%char); [congruence|reflexivity].
Qed.

Lemma space_not_dm (c : ascii) : is_dm c = true -> is_js_space c = false.
Proof.
  unfold is_dm, is_digit, is_minus, is_js_space. intros H.
  destruct (Ascii.eqb_spec c "-"%char) as [E|_]; [rewrite E; reflexivity|].
  rewrite orb_false_r in H. apply andb_prop in H as [H1 H2].
  apply Nat.leb_le in H1. apply Nat.leb_le in H2.
  destruct (Nat.leb_spec 9 (nat_of_ascii c)); destruct (Nat.leb_spec (nat_of_ascii c) 13);
  destruct (Nat.eqb_spec (nat_of_ascii c) 32); destruct (Nat.eqb_spec (nat_of_ascii c) 160);
  cbn; try reflexivity; lia.
Qed.

Lemma forallb_rev {A} (f : A -> bool) (l : list A) :
  forallb f (rev l) = forallb f l.
Proof.
  induction l as [|x l IH]; [reflexivity|]. cbn [rev forallb].
  rewrite forallb_app, IH. cbn. rewrite andb_true_r, andb_comm. reflexivity.
Qed.

Lemma trim_start_id (l : list ascii) :
  forallb (fun c => negb (is_js_space c)) l = true ->
  trim_start (string_of_list_ascii l) = string_of_list_ascii l.
Proof.
  destruct l as [|c l]; [reflexivity|]. cbn. intros H.
  apply andb_prop in H as [Hc _]. apply negb_true_iff in Hc. rewrite Hc. reflexivity.
Qed.

(** [trim] leaves a string without white space as it is. *)
Lemma js_trim_id (s : string) :
  all_chars (fun c => negb (is_js_space c)) s = true -> js_trim s = s.
Proof.
  intros H. unfold js_trim, trim_end.
  assert (Hs : trim_start s = s).
  { rewrite <- (string_of_list_ascii_of_string s). apply trim_start_id. exact H. }
  rewrite Hs.
  rewrite trim_start_id by (rewrite forallb_rev; exact H).
  rewrite list_ascii_of_string_of_list_ascii, rev_involutive.
  apply string_of_list_ascii_of_string.
Qed.

Lemma dm_no_space (s : string) :
  all_chars is_dm s = true -> all_chars (fun c => negb (is_js_space c)) s = true.
Proof.
  induction s as [|c s IH]; [reflexivity|]. rewrite !all_chars_cons.
  intros H; apply andb_prop in H as [Hc Hs]. rewrite IH, space_not_dm by assumption.
  reflexivity.
Qed.

Lemma js_trim_dm (s : string) : all_chars is_dm s = true -> js_trim s = s.
Proof. intros H. apply js_trim_id, dm_no_space, H. Qed.


Lemma validators_sanitize_shape (raw : option string) :
  sanitized_shape (validators_sanitizeInput raw).
Proof.
  unfold sanitized_shape. destruct raw as [raw|]; [|left; reflexivity].
  cbn [validators_sanitizeInput].
  set (c0 := keep_digits_and_minus (js_trim raw)).
  assert (Hc0 : all_chars is_dm c0 = true) by apply keep_dm.
  pose proof (index_minus_spec c0) as Hidx.
  set (c1 := match String.index 0 "-" c0 with
             | Some i => if (0 <? i)%nat then remove_minus c0 else c0
             | None => c0 end).
  assert (Hc1 : all_chars is_dm c1 = true /\
                (all_chars (fun c => negb (is_minus c)) c1 = true \/ exists t, c1 = String "-" t)).
  { unfold c1. destruct (String.index 0 "-" c0) as [[|i]|].
    - cbn. split; [exact Hc0|right; exact Hidx].
    - cbn. split; [apply digit_is_dm, remove_minus_digits, Hc0|left].
      apply digit_not_minus, remove_minus_digits, Hc0.
    - split; [exact Hc0|left; exact Hidx]. }
  fold c1. destruct Hc1 as [Hdm [Hno|[t Ht]]].
  - rewrite remove_minus_no_minus by exact Hno. rewrite Nat.sub_diag. cbn.
    left. rewrite <- (remove_minus_no_minus c1) by exact Hno. apply remove_minus_digits, Hdm.
  - destruct (Nat.leb_spec 2 (String.length c1 - String.length (remove_minus c1))) as [_|Hlt].
    + right. eexists; split; [reflexivity|]. apply remove_minus_digits, Hdm.
    + right. exists t. split; [exact Ht|]. rewrite Ht in Hlt, Hdm.
      pose proof (remove_minus_lt2 t Hlt) as Hnm.
      rewrite all_chars_cons in Hdm. apply andb_prop in Hdm as [_ Hdm].
      rewrite <- (remove_minus_no_minus t) by exact Hnm. apply remove_minus_digits, Hdm.
Qed.

Lemma shape_dm (s : string) : sanitized_shape s -> all_chars is_dm s = true.
Proof.
  intros [H|[t [-> H]]]; [apply digit_is_dm, H|].
  rewrite all_chars_cons. apply digit_is_dm in H. rewrite H. reflexivity.
Qed.

Lemma validators_sanitize_idem (raw : option string) :
  validators_sanitizeInput (Some (validators_sanitizeInput raw)) = validators_sanitizeInput raw.
Proof.
  pose proof (validators_sanitize_shape raw) as Hs.
  set (s := validators_sanitizeInput raw) in *.
  pose proof (shape_dm s Hs) as Hdm.
  cbn [validators_sanitizeInput]. rewrite js_trim_dm, keep_id by exact Hdm.
  destruct Hs as [Hd|[t [Ht Hd]]].
  - pose proof (index_minus_spec s) as Hidx. pose proof (digit_not_minus s Hd) as Hnm.
    assert (Hm : match String.index 0 "-" s with
                 | Some i => if (0 <? i)%nat then remove_minus s else s
                 | None => s end = s).
    { destruct (String.index 0 "-" s) as [[|i]|]; cbn; try reflexivity.
      apply remove_minus_no_minus, Hnm. }
    rewrite Hm, (remove_minus_no_minus s Hnm), Nat.sub_diag. reflexivity.
  - rewrite Ht. cbn [String.index]. 
    change (String.prefix "-" (String "-" t)) with (String.prefix "" t).
    replace (String.prefix "" t) with true by (destruct t; reflexivity). cbv iota.
    cbn [Nat.ltb Nat.leb].
    pose proof (digit_not_minus t Hd) as Hnm.
    cbn [remove_minus String.length]. change (is_minus "-") with true. cbv iota.
    rewrite (remove_minus_no_minus t Hnm). rewrite Nat.sub_succ_l, Nat.sub_diag by lia.
    reflexivity.
Qed.



Lemma uint_digits (d : Decimal.uint) : all_chars is_digit (NilEmpty.string_of_uint d) = true.
Proof. induction d; cbn; auto. Qed.

Lemma uint_nonempty (p : positive) : NilEmpty.string_of_uint (Pos.to_uint p) <> "".
Proof.
  pose proof (DecimalPos.Unsigned.to_uint_nonnil p) as H.
  destruct (Pos.to_uint p); cbn; try discriminate. contradiction.
Qed.

(** A printed integer: one or more digits, after a minus sign when negative. *)
Lemma number_toString_shape (n : Z) :
  exists t, t <> "" /\ all_chars is_digit t = true /\
    js_number_toString n = (if n <? 0 then "-" else "") ++ t.
Proof.
  unfold js_number_toString. destruct n as [|p|p]; cbn.
  - exists "0". split; [discriminate|]. split; reflexivity.
  - exists (NilEmpty.string_of_uint (Pos.to_uint p)).
    split; [apply uint_nonempty|]. split; [apply uint_digits|reflexivity].
  - exists (NilEmpty.string_of_uint (Pos.to_uint p)).
    split; [apply uint_nonempty|]. split; [apply uint_digits|reflexivity].
Qed.

Lemma number_toString_dm (n : Z) : all_chars is_dm (js_number_toString n) = true.
Proof.
  destruct (number_toString_shape n) as [t [_ [Ht ->]]].
  destruct (n <? 0); cbn [append]; [rewrite all_chars_cons; cbn [andb is_dm is_digit is_minus]|]; apply digit_is_dm, Ht.
Qed.


Lemma parse_digits_some (acc : Z) (seen : bool) (s : string) :
  all_chars is_digit s = true -> (s <> "" \/ seen = true) ->
  exists v, parse_digits acc seen s = Some v.
Proof.
  revert acc seen; induction s as [|c s IH]; intros acc seen Hd Hne.
  - destruct Hne as [Hne| ->]; [contradiction|eexists; reflexivity].
  - rewrite all_chars_cons in Hd. apply andb_prop in Hd as [Hc Hs].
    cbn [parse_digits]. rewrite Hc. apply IH; [exact Hs|right; reflexivity].
Qed.

Lemma all_chars_length (s : string) :
  s <> "" -> (0 <? String.length s)%nat = true.
Proof. destruct s; [contradiction|reflexivity]. Qed.

(** [isValidNumber] holds on every JS integer. *)
Lemma isValidNumber_num_true (n : Z) : isValidNumber_num n = true.
Proof.
  unfold isValidNumber_num, validators_isValidNumber.
  rewrite (js_trim_dm _ (number_toString_dm n)).
  destruct (number_toString_shape n) as [t [Hne [Ht ->]]].
  destruct t as [|c t]; [contradiction|].
  destruct (n <? 0).
  - cbn [append String.eqb js_Number_of_digits]. change (is_minus "-") with true. cbv iota.
    rewrite (all_chars_length _ Hne). change (forallb is_digit (list_ascii_of_string (String c t)))
      with (all_chars is_digit (String c t)). rewrite Ht. cbn [andb].
    destruct (parse_digits_some 0 false _ Ht (or_introl Hne)) as [v ->]. reflexivity.
  - cbn [append String.eqb js_Number_of_digits].
    assert (Hc : is_minus c = false).
    { rewrite all_chars_cons in Ht. apply andb_prop in Ht as [Hc _].
      unfold is_digit in Hc. unfold is_minus.
      destruct (Ascii.eqb_spec c "-"%char) as [E|_]; [rewrite E in Hc; discriminate Hc|reflexivity]. }
    rewrite Hc. rewrite (all_chars_length _ Hne). change (forallb is_digit (list_ascii_of_string (String c t)))
      with (all_chars is_digit (String c t)). rewrite Ht. cbn [andb].
    destruct (parse_digits_some 0 false _ Ht (or_introl Hne)) as [v ->]. reflexivity.
Qed.



Lemma has_digit_cons (c : ascii) (s : string) :
  has_digit (String c s) = is_digit c || has_digit s.
Proof. reflexivity. Qed.

Lemma parse_digits_has_digit (acc : Z) (seen : bool) (s : string) (v : Z) :
  parse_digits acc seen s = Some v -> seen = true \/ has_digit s = true.
Proof.
  revert acc seen; induction s as [|c s IH]; intros acc seen H.
  - cbn in H. destruct seen; [left; reflexivity|discriminate].
  - cbn [parse_digits] in H. rewrite has_digit_cons.
    destruct (is_digit c) eqn:Ec; [right; reflexivity|].
    destruct seen; [left; reflexivity|discriminate].
Qed.

Lemma trim_start_has_digit (s : string) :
  has_digit (trim_start s) = true -> has_digit s = true.
Proof.
  induction s as [|c s IH]; [easy|]. cbn [trim_start].
  destruct (is_js_space c); [intros H; rewrite has_digit_cons, IH by exact H; apply orb_true_r|easy].
Qed.

Lemma parseInt_has_digit (s : string) (v : Z) :
  parseInt s = Some v -> has_digit s = true.
Proof.
  unfold parseInt. intros H. apply trim_start_has_digit.
  destruct (trim_start s) as [|c s']; [discriminate|].
  rewrite has_digit_cons.
  destruct (is_minus c).
  - destruct (parse_digits 0 false s') eqn:E; [|discriminate].
    destruct (parse_digits_has_digit _ _ _ _ E) as [F| ->]; [discriminate|apply orb_true_r].
  - destruct (Ascii.eqb c "+"%char).
    + destruct (parse_digits_has_digit _ _ _ _ H) as [F| ->]; [discriminate|apply orb_true_r].
    + destruct (parse_digits_has_digit _ _ _ _ H) as [F|E]; [discriminate|].
      rewrite has_digit_cons in E. exact E.
Qed.

Lemma keep_has_digit (s : string) :
  has_digit (keep_digits_and_minus s) = true -> has_digit s = true.
Proof.
  induction s as [|c s IH]; [easy|]. cbn [keep_digits_and_minus].
  rewrite has_digit_cons.
  destruct (is_digit c || is_minus c); [rewrite has_digit_cons|];
    intros H; [apply orb_true_iff in H as [H|H]; [rewrite H; reflexivity|]|];
    rewrite IH by exact H; apply orb_true_r.
Qed.

Lemma existsb_rev {A} (f : A -> bool) (l : list A) :
  existsb f (rev l) = existsb f l.
Proof.
  induction l as [|x l IH]; [reflexivity|]. cbn [rev existsb].
  rewrite existsb_app, IH. cbn. rewrite orb_false_r, orb_comm. reflexivity.
Qed.

Lemma trim_has_digit (s : string) : has_digit (js_trim s) = true -> has_digit s = true.
Proof.
  unfold js_trim, trim_end, has_digit. intros H.
  rewrite list_ascii_of_string_of_list_ascii, existsb_rev in H.
  apply trim_start_has_digit in H. unfold has_digit in H.
  rewrite list_ascii_of_string_of_list_ascii, existsb_rev in H.
  apply trim_start_has_digit in H. exact H.
Qed.

(** X3: whenever a question is active, an answer string with no digit in
    it (empty, only signs, only letters) is rejected as not a number:
    [valid] and [correct] are false and no [close] flag is given. *)
Theorem validateAnswer_no_digit (e : engine) (s : string) (ca : option Z) (expected : Z) :
  match ca with Some c => Some c | None => option_map answer (currentQuestion e) end
    = Some expected ->
  has_digit s = false ->
  validateAnswer e (InStr s) ca = mkValidation false false None None None MsgInvalidNumber.
Proof.
  intros Hexp Hs. unfold validateAnswer. rewrite Hexp.
  destruct (parseInt (sanitizeInput (InStr s))) as [u|] eqn:Hp; [|reflexivity].
  apply parseInt_has_digit, keep_has_digit, trim_has_digit in Hp. congruence.
Qed.

(** X4: the message chosen by [validateAnswer] agrees with its flags: on a
    valid answer, the correct message exactly when [correct], the close
    message exactly when [close] is true, the far message exactly when
    both are false; an invalid answer is never correct, has no [close]
    flag and no user answer, and gets the no-question or not-a-number
    message. *)
Theorem validateAnswer_message (e : engine) (i : input) (ca : option Z) :
  (valid (validateAnswer e i ca) = true ->
   (v_message (validateAnswer e i ca) = MsgCorrect <-> correct (validateAnswer e i ca) = true) /\
   (v_message (validateAnswer e i ca) = MsgClose <-> close (validateAnswer e i ca) = Some true) /\
   (v_message (validateAnswer e i ca) = MsgFar <->
      correct (validateAnswer e i ca) = false /\ close (validateAnswer e i ca) = Some false)) /\
  (valid (validateAnswer e i ca) = false ->
   correct (validateAnswer e i ca) = false /\ close (validateAnswer e i ca) = None /\
   userAnswer (validateAnswer e i ca) = None /\
   (v_message (validateAnswer e i ca) = MsgNoQuestion \/
    v_message (validateAnswer e i ca) = MsgInvalidNumber)).
Proof.
  unfold validateAnswer.
  destruct (match ca with Some c => Some c | None => option_map answer (currentQuestion e) end)
    as [x|]; [|cbn; split; [discriminate|intros _; auto]].
  destruct (parseInt (sanitizeInput i)) as [u|]; [|cbn; split; [discriminate|intros _; auto]].
  cbn [valid correct close v_message]. split; [intros _|discriminate].
  destruct (u =? x); destruct (Z.abs (u - x) <=? 2); cbn;
    intuition congruence.
Qed.


(** X1: the sanitizer of validators.js yields digits only, or one leading
    minus sign followed by digits only, and sanitizing its output again
    changes nothing. *)
Theorem validators_sanitizeInput_canonical (raw : option string) :
  sanitized_shape (validators_sanitizeInput raw) /\
  validators_sanitizeInput (Some (validators_sanitizeInput raw)) = validators_sanitizeInput raw.
Proof. split; [apply validators_sanitize_shape|apply validators_sanitize_idem]. Qed.


(** X3 at the answer ["abc"] to a question whose answer is [7]. *)
Lemma validateAnswer_no_digit_witness :
  has_digit "abc" = false /\
  validateAnswer constructor (InStr "abc") (Some 7)
    = mkValidation false false None None None MsgInvalidNumber.
Proof.
  split; [reflexivity|].
  apply (validateAnswer_no_digit constructor "abc" (Some 7) 7); reflexivity.
Defined.

End SanitizerFacts.

(** * Properties of the other checks of validators.js *)
Module ValidatorFacts.
Import MathEngine Validators StringClasses SanitizerFacts.


Lemma isAnswerClose_2 (u x : Z) :
  isAnswerClose u x 2 = negb (u =? x) && (Z.abs (u - x) <=? 2).
Proof.
  unfold isAnswerClose. rewrite !isValidNumber_num_true. cbn [negb orb].
  destruct (Z.eqb_spec u x) as [->|Hne].
  - rewrite Z.sub_diag. reflexivity.
  - replace (0 <? Z.abs (u - x)) with true by (symmetry; apply Z.ltb_lt; lia). reflexivity.
Qed.

(** X5: the [close] flag of the engine's [validateAnswer] and of the one of
    validators.js is [isAnswerClose] of validators.js with its default
    threshold [2]. *)
Theorem validateAnswer_close_isAnswerClose (e : engine) (i : input) (ca : option Z)
    (raw : option string) (expected u v : Z) :
  (match ca with Some c => Some c | None => option_map answer (currentQuestion e) end)
    = Some expected ->
  parseInt (sanitizeInput i) = Some u ->
  close (validateAnswer e i ca) = Some (isAnswerClose u expected 2) /\
  (validators_isValidNumber (validators_sanitizeInput raw) = true ->
   parseInt (validators_sanitizeInput raw) = Some v ->
   vr_close (validators_validateAnswer raw expected) = Some (isAnswerClose v expected 2)).
Proof.
  intros Hexp Hu. split.
  - unfold validateAnswer. rewrite Hexp, Hu. cbn. rewrite isAnswerClose_2. reflexivity.
  - intros Hval Hv. unfold validators_validateAnswer. rewrite Hval, Hv. cbn.
    rewrite isAnswerClose_2. reflexivity.
Qed.

(** X6: [isValidDifficulty] accepts a string exactly when the engine's
    [setDifficulty], given the string's lower-case form, keeps that form as
    the tier. *)
Theorem isValidDifficulty_setDifficulty (s : string) (e : engine) :
  isValidDifficulty s = true <->
  currentDifficulty (setDifficulty (js_toLowerCase s) e) = js_toLowerCase s.
Proof.
  unfold isValidDifficulty, setDifficulty. fold validLevels.
  destruct (existsb (String.eqb (js_toLowerCase s)) validLevels) eqn:Hex; cbn.
  - split; reflexivity.
  - split; [discriminate|]. intros H. rewrite <- H in Hex. discriminate Hex.
Qed.

Lemma trim_start_spaces (s : string) :
  all_chars is_js_space s = true -> trim_start s = "".
Proof.
  induction s as [|c s IH]; [reflexivity|]. rewrite all_chars_cons.
  intros H. apply andb_prop in H as [Hc Hs]. cbn. rewrite Hc. apply IH, Hs.
Qed.

(** X7: [validatePlayerName] accepts a string exactly when its trimmed form
    has 2 to 20 characters, all letters, digits or white space; a
    non-empty string of white space only is reported as empty, and a
    missing name as required. *)
Theorem validatePlayerName_spec (n : string) :
  (fst (validatePlayerName (Some n)) = true <->
   (2 <= String.length (js_trim n) <= 20)%nat /\
   all_chars (fun c => is_alnum c || is_js_space c) (js_trim n) = true) /\
  (n <> "" -> all_chars is_js_space n = true ->
   validatePlayerName (Some n) = (false, "Name cannot be empty")) /\
  validatePlayerName None = (false, "Name is required").
Proof.
  split; [|split; [|reflexivity]].
  - destruct n as [|c n'].
    + cbn. split; [discriminate|]. intros [H _]. lia.
    + cbn [validatePlayerName]. set (t := js_trim (String c n')).
      destruct (Nat.eqb_spec (String.length t) 0); cbn [fst];
        [split; [discriminate|lia]|].
      destruct (Nat.ltb_spec (String.length t) 2); cbn [fst];
        [split; [discriminate|lia]|].
      destruct (Nat.ltb_spec 20 (String.length t)); cbn [fst];
        [split; [discriminate|lia]|].
      unfold all_chars.
      destruct (forallb _ (list_ascii_of_string t)); cbn; split; try discriminate; auto.
      intros [_ Hbad]; discriminate Hbad.
  - intros Hne Hsp. destruct n as [|c n']; [contradiction|].
    cbn [validatePlayerName].
    assert (Ht : js_trim (String c n') = "").
    { unfold js_trim. rewrite trim_start_spaces by exact Hsp. reflexivity. }
    rewrite Ht. reflexivity.
Qed.


(** X5 at the answer [" 8 "] to a question whose answer is [7]. *)
Lemma validateAnswer_close_isAnswerClose_witness :
  parseInt (sanitizeInput (InStr " 8 ")) = Some 8 /\
  close (validateAnswer constructor (InStr " 8 ") (Some 7)) = Some (isAnswerClose 8 7 2) /\
  isAnswerClose 8 7 2 = true.
Proof.
  assert (Hu : parseInt (sanitizeInput (InStr " 8 ")) = Some 8) by (vm_compute; reflexivity).
  split; [exact Hu|]. split; [|vm_compute; reflexivity].
  exact (proj1 (validateAnswer_close_isAnswerClose constructor (InStr " 8 ") (Some 7)
                  (Some "8") 7 8 8 eq_refl Hu)).
Defined.

End ValidatorFacts.

(** * More properties of the question engine *)
Module QuestionFacts.
Import MathEngine Validators StringClasses EngineFacts SanitizerFacts.


(** X8: for a template [pre{a}mid{b}post] (no brace in [pre] or [mid])
    whose operation is not subtraction, the answer is [a + b], the text
    has [a] and [b] in their placeholders in the order drawn, and the
    question is labelled with the engine's tier. *)
Theorem generateQuestion_addition (e : engine) (now : Z) (tmpl : template)
    (a b : Z) (pre mid post : string) :
  t_operation tmpl <> "subtraction" ->
  t_template tmpl = pre ++ "{a}" ++ mid ++ "{b}" ++ post ->
  has_no_brace pre = true -> has_no_brace mid = true ->
  answer (generateQuestion e now tmpl a b) = a + b /\
  questionText (generateQuestion e now tmpl a b)
    = pre ++ js_number_toString a ++ mid ++ js_number_toString b ++ post /\
  q_difficulty (generateQuestion e now tmpl a b) = currentDifficulty e.
Proof.
  intros Hop Htext Hp Hm. apply String.eqb_neq in Hop.
  unfold generateQuestion; cbn [answer questionText q_difficulty]. rewrite Hop, Htext.
  split; [destruct (String.eqb (t_operation tmpl) "addition"); reflexivity|].
  split; [|reflexivity].
  apply fill_placeholders; auto using has_no_brace_number.
Qed.

Lemma candidatePool_incl (pool : list template) (recent : list string) (t : template) :
  In t (candidatePool pool recent) -> In t pool.
Proof.
  unfold candidatePool. destruct (0 <? length _)%nat; [|auto].
  intros H. apply filter_In in H as [H _]. exact H.
Qed.

(** X9: when the tier's pool has a template whose id is not in the window,
    the template [getNextQuestion] picks is not in the window. *)
Theorem getNextQuestion_fresh (e e' : engine) (q : question) (k : nat) (a b now : Z)
    (pool : list template) (t : template) :
  bank_lookup (bank_in_use e) (currentDifficulty e) = Some pool ->
  In t pool -> ~ In (t_id t) (recentQuestions e) ->
  getNextQuestion e k a b now = Some (e', q) ->
  ~ In (lastRecent e') (recentQuestions e).
Proof.
  intros Hpool Ht Hnin Hget.
  assert (Hne : pool <> []) by (intros ->; contradiction).
  destruct (getNextQuestion_step e e' q k a b now pool Hpool Hne Hget)
    as [_ [_ [tmpl [Hin Hrec]]]].
  unfold lastRecent. rewrite Hrec, addToRecent_last.
  unfold candidatePool in Hin.
  set (avail := filter _ pool) in Hin.
  assert (Hav : In t avail).
  { apply filter_In. split; [exact Ht|]. apply negb_true_iff, not_true_iff_false.
    intros Hex. apply existsb_exists in Hex as [w [Hw Hweq]].
    apply String.eqb_eq in Hweq. apply Hnin. rewrite Hweq. exact Hw. }
  destruct (Nat.ltb_spec 0 (length avail)) as [_|Hz];
    [|destruct avail; [contradiction|cbn in Hz; lia]].
  apply filter_In in Hin as [_ Hnot]. apply negb_true_iff in Hnot.
  intros Hin'. rewrite <- not_true_iff_false in Hnot. apply Hnot.
  apply existsb_exists. exists (t_id tmpl). split; [exact Hin'|apply String.eqb_refl].
Qed.

(** X10: [setDifficulty], [reset] and [getNextQuestion] keep the window of
    recent ids at three entries or fewer. *)
Theorem window_bound (e : engine) :
  (length (recentQuestions e) <= maxRecentQuestions)%nat ->
  (forall level, (length (recentQuestions (setDifficulty level e)) <= maxRecentQuestions)%nat) /\
  (length (recentQuestions (reset e)) <= maxRecentQuestions)%nat /\
  (forall k a b now e' q, getNextQuestion e k a b now = Some (e', q) ->
     (length (recentQuestions e') <= maxRecentQuestions)%nat).
Proof.
  intros H. split; [|split].
  - intros level. unfold setDifficulty. destruct (negb _); cbn; [exact H|unfold maxRecentQuestions; lia].
  - cbn. unfold maxRecentQuestions; lia.
  - intros k a b now e' q Hget. unfold getNextQuestion in Hget. cbn [currentDifficulty recentQuestions] in Hget.
    destruct (bank_lookup _ _) as [[|t0 pool]|].
    + injection Hget as <- _. exact H.
    + destruct (getRandomElement _ k); [|discriminate].
      injection Hget as <- _. apply addToRecent_length, H.
    + injection Hget as <- _. exact H.
Qed.


(** X12: with a random index in range, a non-empty pool always yields a
    question built from one of its templates; that question is stored as
    the current one and its template id is the newest window entry. *)
Theorem getNextQuestion_in_range (e : engine) (k : nat) (a b now : Z) (pool : list template) :
  bank_lookup (bank_in_use e) (currentDifficulty e) = Some pool -> pool <> [] ->
  (k < length (candidatePool pool (recentQuestions e)))%nat ->
  exists tmpl e',
    In tmpl pool /\
    getNextQuestion e k a b now = Some (e', generateQuestion e now tmpl a b) /\
    currentQuestion e' = Some (generateQuestion e now tmpl a b) /\
    questionBank e' = Some (bank_in_use e) /\
    lastRecent e' = t_id tmpl.
Proof.
  intros Hpool Hne Hk. unfold getNextQuestion. cbn [currentDifficulty recentQuestions].
  rewrite Hpool. destruct pool as [|t0 pool']; [contradiction|].
  assert (Hn : exists tmpl, nth_error (candidatePool (t0 :: pool') (recentQuestions e)) k = Some tmpl).
  { destruct (nth_error _ k) eqn:E; [eauto|]. apply nth_error_None in E. lia. }
  destruct Hn as [tmpl Hn].
  assert (Hin : In tmpl (t0 :: pool')) by eapply candidatePool_incl, nth_error_In, Hn.
  unfold getRandomElement.
  destruct (candidatePool (t0 :: pool') (recentQuestions e)) as [|c cs] eqn:Hc;
    [cbn in Hk; lia|].
  rewrite Hn.
  exists tmpl. eexists. split; [|split; [|split; [|split]]].
  - exact Hin.
  - assert (He : generateQuestion (mkEngine (Some (bank_in_use e)) (currentDifficulty e)
                   (recentQuestions e) (currentQuestion e)) now tmpl a b
                 = generateQuestion e now tmpl a b) by reflexivity.
    rewrite He. reflexivity.
  - reflexivity.
  - reflexivity.
  - unfold lastRecent. cbn [recentQuestions]. apply addToRecent_last.
Qed.

(** Every pool of the default bank has at least three templates, all valid. *)
Lemma default_bank_pools (d : string) (pool : list template) :
  bank_lookup getDefaultQuestionBank d = Some pool ->
  (3 <= length pool)%nat /\ forallb valid_template pool = true.
Proof.
  cbn [getDefaultQuestionBank bank_lookup].
  destruct (String.eqb d "easy"); [intros H; injection H as <-; split; [cbn; lia|reflexivity]|].
  destruct (String.eqb d "medium"); [intros H; injection H as <-; split; [cbn; lia|reflexivity]|].
  destruct (String.eqb d "hard"); [intros H; injection H as <-; split; [cbn; lia|reflexivity]|].
  discriminate.
Qed.

(** X13: after [setDifficulty] with any string, an engine on the default
    bank finds a pool of at least three templates, so the fallback is
    never taken. *)
Theorem default_bank_no_fallback (e : engine) (level : string) :
  questionBank e = None \/ questionBank e = Some getDefaultQuestionBank ->
  exists pool,
    bank_lookup (bank_in_use (setDifficulty level e)) (currentDifficulty (setDifficulty level e))
      = Some pool /\ (3 <= length pool)%nat.
Proof.
  intros Hb.
  assert (Hbank : bank_in_use (setDifficulty level e) = getDefaultQuestionBank).
  { unfold bank_in_use, setDifficulty. destruct (negb _); cbn; destruct Hb as [-> | ->]; reflexivity. }
  rewrite Hbank.
  assert (Hd : In (currentDifficulty (setDifficulty level e)) validLevels).
  { unfold setDifficulty. destruct (existsb (String.eqb level) validLevels) eqn:Hex; cbn.
    - apply existsb_exists in Hex as [w [Hw Hweq]]. apply String.eqb_eq in Hweq. subst w. exact Hw.
    - left; reflexivity. }
  destruct Hd as [<-|[<-|[<-|[]]]]; eexists; (split; [reflexivity|cbn; lia]).
Qed.

Lemma isValidQuestion_generate (e : engine) (now : Z) (tmpl : template) (a b : Z) :
  isValidQuestion (generateQuestion e now tmpl a b) = valid_template tmpl.
Proof.
  unfold isValidQuestion, valid_template. rewrite isValidNumber_num_true.
  change (q_type (generateQuestion e now tmpl a b)) with (t_type tmpl).
  change (q_operation (generateQuestion e now tmpl a b)) with (t_operation tmpl).
  cbn [negb]. destruct (existsb (String.eqb (t_type tmpl)) _);
    destruct (existsb (String.eqb (t_operation tmpl)) _); reflexivity.
Qed.

(** X14: every question [getNextQuestion] returns on the default bank
    passes [isValidQuestion] of validators.js. *)
Theorem getNextQuestion_default_valid (e e' : engine) (q : question) (k : nat) (a b now : Z) :
  questionBank e = None \/ questionBank e = Some getDefaultQuestionBank ->
  getNextQuestion e k a b now = Some (e', q) ->
  isValidQuestion q = true.
Proof.
  intros Hb Hget.
  assert (Hbank : bank_in_use e = getDefaultQuestionBank)
    by (unfold bank_in_use; destruct Hb as [-> | ->]; reflexivity).
  unfold getNextQuestion in Hget. cbn [currentDifficulty recentQuestions] in Hget.
  destruct (bank_lookup (bank_in_use e) (currentDifficulty e)) as [[|t0 pool]|] eqn:Hp.
  - injection Hget as _ <-. unfold isValidQuestion. rewrite isValidNumber_num_true. reflexivity.
  - destruct (getRandomElement _ k) as [tmpl|] eqn:Hr; [|discriminate].
    injection Hget as _ <-. rewrite isValidQuestion_generate.
    rewrite Hbank in Hp. apply default_bank_pools in Hp as [_ Hall].
    rewrite forallb_forall in Hall. apply Hall.
    unfold getRandomElement in Hr. destruct (candidatePool _ _) eqn:Hc; [discriminate|].
    rewrite <- Hc in Hr. eapply candidatePool_incl, nth_error_In, Hr.
  - injection Hget as _ <-. unfold isValidQuestion. rewrite isValidNumber_num_true. reflexivity.
Qed.


(** X8 at an addition template with the draws [4] and [5]. *)
Lemma generateQuestion_addition_witness :
  questionText (generateQuestion constructor 100
    (mk_template "t" "equation" "addition" "{a} + {b} = ?" 0 10 true None) 4 5) = "4 + 5 = ?" /\
  answer (generateQuestion constructor 100
    (mk_template "t" "equation" "addition" "{a} + {b} = ?" 0 10 true None) 4 5) = 9.
Proof.
  destruct (generateQuestion_addition constructor 100
              (mk_template "t" "equation" "addition" "{a} + {b} = ?" 0 10 true None)
              4 5 "" " + " " = ?") as [H1 [H2 _]];
    [discriminate|reflexivity|reflexivity|reflexivity|].
  split; [rewrite H2; reflexivity|rewrite H1; reflexivity].
Defined.

(** X9 at the easy tier with two of its four ids in the window. *)
Lemma getNextQuestion_fresh_witness :
  exists e' q,
    getNextQuestion (mkEngine None "easy" ["add_easy_001"; "sub_easy_001"] None) 0 3 4 100
      = Some (e', q) /\
    ~ In (lastRecent e') ["add_easy_001"; "sub_easy_001"].
Proof.
  do 2 eexists. split; [reflexivity|].
  eapply (getNextQuestion_fresh (mkEngine None "easy" ["add_easy_001"; "sub_easy_001"] None)
            _ _ 0 3 4 100 _
            (mk_template "sub_easy_002" "word-problem" "subtraction"
               "The gorilla had {a} bananas and ate {b}. How many are left?" 0 10 true
               (Some "bananas"))).
  - reflexivity.
  - right. right. right. left. reflexivity.
  - cbn. intros [H|[H|[]]]; discriminate.
  - reflexivity.
Defined.

(** X10 on a full window. *)
Lemma window_bound_witness :
  (length (recentQuestions (mkEngine None "easy" ["x"; "y"; "z"] None)) <= maxRecentQuestions)%nat /\
  (forall k a b now e' q,
     getNextQuestion (mkEngine None "easy" ["x"; "y"; "z"] None) k a b now = Some (e', q) ->
     (length (recentQuestions e') <= maxRecentQuestions)%nat).
Proof.
  assert (H : (length (recentQuestions (mkEngine None "easy" ["x"; "y"; "z"] None))
               <= maxRecentQuestions)%nat) by (cbn; unfold maxRecentQuestions; lia).
  split; [exact H|exact (proj2 (proj2 (window_bound _ H)))].
Defined.


(** X12 on a new engine, whose easy pool has four templates, at index [2]. *)
Lemma getNextQuestion_in_range_witness :
  exists tmpl e',
    getNextQuestion constructor 2 3 4 100 = Some (e', generateQuestion constructor 100 tmpl 3 4) /\
    currentQuestion e' = Some (generateQuestion constructor 100 tmpl 3 4).
Proof.
  edestruct (getNextQuestion_in_range constructor 2 3 4 100 _ eq_refl) as [tmpl [e' [_ [H1 [H2 _]]]]].
  - discriminate.
  - apply Nat.ltb_lt. vm_compute. reflexivity.
  - exists tmpl, e'. split; [exact H1|exact H2].
Defined.

(** X13 on a new engine given the name ["Hard"]. *)
Lemma default_bank_no_fallback_witness :
  questionBank constructor = None /\
  exists pool,
    bank_lookup (bank_in_use (setDifficulty "Hard" constructor))
      (currentDifficulty (setDifficulty "Hard" constructor)) = Some pool /\
    (3 <= length pool)%nat.
Proof.
  assert (H : questionBank constructor = None) by reflexivity.
  split; [exact H|exact (default_bank_no_fallback constructor "Hard" (or_introl H))].
Defined.

(** X14 on a new engine. *)
Lemma getNextQuestion_default_valid_witness :
  exists e' q, getNextQuestion constructor 0 3 4 100 = Some (e', q) /\ isValidQuestion q = true.
Proof.
  do 2 eexists. split; [reflexivity|].
  eapply (getNextQuestion_default_valid constructor _ _ 0 3 4 100); [left; reflexivity|reflexivity].
Defined.

End QuestionFacts.

(** * More properties of the progress model *)
Module ProgressExtraFacts.
Import ProgressManager ProgressQueries ProgressFacts.


Lemma get_tier_none {A B} (d : string) (t : per_tier A) (t' : per_tier B) :
  get_tier d t = None -> get_tier d t' = None.
Proof.
  unfold get_tier. destruct (String.eqb d "easy"); [discriminate|].
  destruct (String.eqb d "medium"); [discriminate|].
  destruct (String.eqb d "hard"); [discriminate|reflexivity].
Qed.

Lemma saveProgress_keeps (js : stored_data -> string) (now : Z) (ok : bool) (m : manager) :
  sessionData (fst (saveProgress js now ok m)) = sessionData m /\
  persistentData (fst (saveProgress js now ok m)) = persistentData m.
Proof. unfold saveProgress. destruct ok; split; reflexivity. Qed.

Lemma seq_levels_fresh (n : nat) :
  existsb (Z.eqb (Z.of_nat (length (map Z.of_nat (seq 1 n))) + 1)) (map Z.of_nat (seq 1 n)) = false.
Proof.
  rewrite length_map, length_seq. apply not_true_iff_false. intros H.
  apply existsb_exists in H as [x [Hx Hq]]. apply Z.eqb_eq in Hq.
  apply in_map_iff in Hx as [y [<- Hy]]. apply in_seq in Hy. lia.
Qed.

Lemma seq_levels_next (n : nat) :
  (map Z.of_nat (seq 1 n) ++ [Z.of_nat (length (map Z.of_nat (seq 1 n))) + 1])%list
  = map Z.of_nat (seq 1 (S n)).
Proof.
  rewrite length_map, length_seq, seq_S, map_app. cbn. f_equal. f_equal. lia.
Qed.

Section Sessions.
Variable json_stringify : stored_data -> string.

(** X15: completing a session at a tier whose completed levels are
    [1..n] makes them [1..n+1], so [isLevelCompleted] then holds for
    [n+1]. *)
Theorem completeSession_levels (now : Z) (ok : bool) (m : manager) (n : nat) :
  get_tier (difficulty (sessionData m)) (levelsCompleted (persistentData m))
    = Some (map Z.of_nat (seq 1 n)) ->
  getCompletedLevels (difficulty (sessionData m)) (fst (completeSession json_stringify now ok m))
    = map Z.of_nat (seq 1 (S n)) /\
  isLevelCompleted (difficulty (sessionData m)) (Z.of_nat (S n))
    (fst (completeSession json_stringify now ok m)) = Some true.
Proof.
  destruct m as [s p st]. cbn [sessionData persistentData]. intros H.
  unfold completeSession, updateElapsedTime, set_session. cbn [sessionData persistentData difficulty].
  cbn [levelsCompleted]. rewrite H. cbv zeta.
  rewrite seq_levels_fresh. cbn [negb].
  set (m1 := set_persistent _ _).
  destruct (saveProgress_keeps json_stringify now ok m1) as [_ Hp].
  unfold getCompletedLevels, isLevelCompleted. cbn [fst]. rewrite Hp.
  unfold m1, set_persistent. cbn [persistentData levelsCompleted].
  rewrite (get_set_tier _ _ _ _ _ H), String.eqb_refl, seq_levels_next. cbn [pick option_map].
  split; [reflexivity|]. f_equal. apply existsb_exists. exists (Z.of_nat (S n)).
  split; [|apply Z.eqb_refl]. apply in_map, in_seq. lia.
Qed.

(** X16: at a session difficulty that is no tier name, [completeSession]
    throws after counting the session and its bananas, and before touching
    the completed levels, the high scores or the storage. *)
Theorem completeSession_not_tier (now : Z) (ok : bool) (m : manager) :
  get_tier (difficulty (sessionData m)) (levelsCompleted (persistentData m)) = None ->
  snd (completeSession json_stringify now ok m) = None /\
  storage (fst (completeSession json_stringify now ok m)) = storage m /\
  totalSessions (persistentData (fst (completeSession json_stringify now ok m)))
    = totalSessions (persistentData m) + 1 /\
  totalBananas (persistentData (fst (completeSession json_stringify now ok m)))
    = totalBananas (persistentData m) + bananasCollected (sessionData m) /\
  levelsCompleted (persistentData (fst (completeSession json_stringify now ok m)))
    = levelsCompleted (persistentData m) /\
  highScores (persistentData (fst (completeSession json_stringify now ok m)))
    = highScores (persistentData m).
Proof.
  destruct m as [s p st]. cbn [sessionData persistentData storage]. intros H.
  unfold completeSession, updateElapsedTime, set_session. cbn [sessionData persistentData difficulty].
  rewrite (get_tier_none _ _ (highScores p) H). cbn [levelsCompleted]. rewrite H.
  repeat split; reflexivity.
Qed.

(** X17: a failed storage write in [completeSession] changes nothing but
    the storage: the result and the records in memory are those of a
    successful write, and the stored entry is the old one. *)
Theorem completeSession_write_failure (now : Z) (m : manager) :
  snd (completeSession json_stringify now false m) = snd (completeSession json_stringify now true m) /\
  sessionData (fst (completeSession json_stringify now false m))
    = sessionData (fst (completeSession json_stringify now true m)) /\
  persistentData (fst (completeSession json_stringify now false m))
    = persistentData (fst (completeSession json_stringify now true m)) /\
  storage (fst (completeSession json_stringify now false m)) = storage m.
Proof.
  destruct m as [s p st].
  unfold completeSession, updateElapsedTime, set_session. cbn [sessionData persistentData storage].
  destruct (get_tier _ _); repeat split; reflexivity.
Qed.

End Sessions.

Lemma merge_to_stored (dflt p : persistent_data) : merge_persistent dflt (to_stored p) = p.
Proof. destruct p; reflexivity. Qed.

(** X18: with a JSON printer and parser that round-trip the saved object,
    what [saveProgress] writes a new manager's [loadProgress] reads back:
    it returns true and restores the persistent record exactly. *)
Theorem saveProgress_loadProgress (json_stringify : stored_data -> string)
    (json_parse : string -> option parsed) (now now0 now1 : Z) (rnd0 rnd1 : string)
    (m : manager) :
  json_parse (json_stringify (progress_data now m)) = Some (PObject (progress_data now m)) ->
  json_stringify (progress_data now m) <> "" ->
  snd (saveProgress json_stringify now true m) = true /\
  loadProgress json_parse now1 rnd1
    (constructor now0 rnd0 (storage (fst (saveProgress json_stringify now true m))))
  = (mkManager (getDefaultSessionData now0) (persistentData m)
       (Some (json_stringify (progress_data now m))), true).
Proof.
  intros Hp Hne. split; [reflexivity|].
  change (storage (fst (saveProgress json_stringify now true m)))
    with (Some (json_stringify (progress_data now m))).
  unfold loadProgress. cbn [storage constructor].
  destruct (json_stringify (progress_data now m)) as [|c rest] eqn:E; [contradiction|].
  rewrite Hp. cbn [progress_data sd_persistent]. rewrite merge_to_stored. reflexivity.
Qed.

(** X19: importing the persistent record of [exportProgress] restores it
    on any manager and keeps that manager's session; a missing argument is
    refused with no change, and a missing [persistent] field keeps the
    current record. *)
Theorem importProgress_export (json_stringify : stored_data -> string) (now : Z) (rnd : string)
    (ok : bool) (m m' : manager) :
  snd (importProgress json_stringify now rnd ok (Some (Some (exportProgress_persistent m))) m') = true /\
  persistentData (fst (importProgress json_stringify now rnd ok
                         (Some (Some (exportProgress_persistent m))) m')) = persistentData m /\
  sessionData (fst (importProgress json_stringify now rnd ok
                      (Some (Some (exportProgress_persistent m))) m')) = sessionData m' /\
  importProgress json_stringify now rnd ok None m' = (m', false) /\
  persistentData (fst (importProgress json_stringify now rnd ok (Some None) m')) = persistentData m'.
Proof.
  split; [reflexivity|]. unfold importProgress, exportProgress_persistent.
  rewrite merge_to_stored. cbn [fst].
  destruct (saveProgress_keeps json_stringify now ok
              (set_persistent m' (persistentData m))) as [Hs Hp].
  destruct (saveProgress_keeps json_stringify now ok m') as [_ Hp'].
  rewrite Hs, Hp, Hp'. repeat split; reflexivity.
Qed.

(** X20: after a [resetAllProgress] whose removal succeeds, [loadProgress]
    finds nothing and the defaults stay; when the removal fails, the next
    [loadProgress] brings the old progress back. *)
Theorem resetAllProgress_durability (json_parse : string -> option parsed)
    (now now' : Z) (rnd rnd' saved : string) (m : manager) (d : stored_data)
    (sp : stored_persistent) :
  storage m = Some saved -> saved <> "" ->
  json_parse saved = Some (PObject d) -> sd_persistent d = Some sp ->
  loadProgress json_parse now' rnd' (resetAllProgress now rnd true m)
    = (resetAllProgress now rnd true m, false) /\
  persistentData (resetAllProgress now rnd true m) = getDefaultPersistentData now rnd /\
  loadProgress json_parse now' rnd' (resetAllProgress now rnd false m)
  = (mkManager (getDefaultSessionData now)
       (merge_persistent (getDefaultPersistentData now' rnd') sp) (Some saved), true).
Proof.
  intros Hs Hne Hp Hd. split; [reflexivity|]. split; [reflexivity|].
  unfold loadProgress, resetAllProgress. cbn [storage]. rewrite Hs.
  destruct saved as [|c rest]; [contradiction|]. rewrite Hp, Hd. reflexivity.
Qed.



(** X15 on the second completed easy session. *)
Lemma completeSession_levels_witness :
  getCompletedLevels "easy" (fst (completeSession (fun _ => "{}") 4 true
    (startSession "easy" 5 3 (fst (completeSession (fun _ => "{}") 2 true
       (startSession "easy" 5 1 (constructor 0 "abc" None))))))) = [1; 2] /\
  isLevelCompleted "easy" 2 (fst (completeSession (fun _ => "{}") 4 true
    (startSession "easy" 5 3 (fst (completeSession (fun _ => "{}") 2 true
       (startSession "easy" 5 1 (constructor 0 "abc" None))))))) = Some true.
Proof.
  exact (completeSession_levels (fun _ => "{}") 4 true
    (startSession "easy" 5 3 (fst (completeSession (fun _ => "{}") 2 true
       (startSession "easy" 5 1 (constructor 0 "abc" None))))) 1 eq_refl).
Defined.

(** X16 on a session started with the name ["Hard"]. *)
Lemma completeSession_not_tier_witness :
  snd (completeSession (fun _ => "{}") 2 true (startSession "Hard" 5 1 (constructor 0 "abc" None)))
    = None /\
  totalSessions (persistentData (fst (completeSession (fun _ => "{}") 2 true
    (startSession "Hard" 5 1 (constructor 0 "abc" None))))) = 1.
Proof.
  destruct (completeSession_not_tier (fun _ => "{}") 2 true
              (startSession "Hard" 5 1 (constructor 0 "abc" None)) eq_refl)
    as [H1 [_ [H3 _]]].
  split; [exact H1|rewrite H3; reflexivity].
Defined.

(** X18 with a printer writing ["{saved}"] and a parser reading the saved
    object back. *)
Lemma saveProgress_loadProgress_witness :
  loadProgress (fun _ => Some (PObject (progress_data 5 (constructor 0 "abc" None)))) 9 "zzz"
    (constructor 7 "def"
       (storage (fst (saveProgress (fun _ => "{saved}") 5 true (constructor 0 "abc" None)))))
  = (mkManager (getDefaultSessionData 7) (persistentData (constructor 0 "abc" None))
       (Some "{saved}"), true).
Proof.
  assert (Hne : "{saved}" <> "") by discriminate.
  exact (proj2 (saveProgress_loadProgress (fun _ => "{saved}")
    (fun _ => Some (PObject (progress_data 5 (constructor 0 "abc" None)))) 5 7 9 "def" "zzz"
    (constructor 0 "abc" None) eq_refl Hne)).
Defined.

(** X20 on a manager whose storage holds a saved entry. *)
Lemma resetAllProgress_durability_witness :
  loadProgress (fun _ => Some (PObject (progress_data 0 (constructor 0 "abc" (Some "{saved}")))))
    9 "zzz" (resetAllProgress 5 "new" false (constructor 0 "abc" (Some "{saved}")))
  = (mkManager (getDefaultSessionData 5) (getDefaultPersistentData 0 "abc") (Some "{saved}"), true).
Proof.
  assert (Hne : "{saved}" <> "") by discriminate.
  exact (proj2 (proj2 (resetAllProgress_durability
    (fun _ => Some (PObject (progress_data 0 (constructor 0 "abc" (Some "{saved}")))))
    5 9 "new" "zzz" "{saved}" (constructor 0 "abc" (Some "{saved}"))
    (progress_data 0 (constructor 0 "abc" (Some "{saved}")))
    (to_stored (getDefaultPersistentData 0 "abc")) eq_refl Hne eq_refl eq_refl))).
Defined.

End ProgressExtraFacts.

(** * Properties of the session counters and stars *)
Module SessionFacts.
Import ProgressManager ProgressFacts.


Section Ops.
Variable json_stringify : stored_data -> string.
Variable json_parse : string -> option parsed.

Lemma exec_score_bananas_mono (o : op) (m : manager) :
  resets_session o = false ->
  score (sessionData m) <= score (sessionData (exec json_stringify json_parse o m)) /\
  bananasCollected (sessionData m)
    <= bananasCollected (sessionData (exec json_stringify json_parse o m)).
Proof.
  destruct m as [s p st]. destruct o; cbn [resets_session]; intros H; try discriminate; cbn [exec].
  - unfold incrementScore. cbn. destruct (Z.ltb_spec points 0); cbn; lia.
  - destruct isCorrect; cbn; lia.
  - unfold addBananas. cbn. destruct (Z.ltb_spec count 0); cbn; lia.
  - cbn; lia.
  - cbn; lia.
  - unfold completeSession. cbn. destruct (get_tier _ _); cbn; [|lia].
    destruct write_ok; cbn; lia.
  - unfold saveProgress. destruct write_ok; cbn; lia.
  - unfold loadProgress. cbn. destruct st as [[|c r]|]; cbn; try lia.
    destruct (json_parse _) as [[|d|]|]; cbn; try lia. destruct (sd_persistent d); cbn; lia.
  - unfold updatePreferences, saveProgress. destruct write_ok; cbn; lia.
Qed.

(** X22: along any calls that start no new session, the score and the
    banana count never decrease (negative points and counts are refused). *)
Theorem score_bananas_monotone (os : list op) (m : manager) :
  forallb (fun o => negb (resets_session o)) os = true ->
  score (sessionData m) <= score (sessionData (exec_all json_stringify json_parse os m)) /\
  bananasCollected (sessionData m)
    <= bananasCollected (sessionData (exec_all json_stringify json_parse os m)).
Proof.
  unfold exec_all. revert m; induction os as [|o os IH]; intros m H; [cbn; lia|].
  cbn [forallb] in H. apply andb_prop in H as [Ho Hos]. apply negb_true_iff in Ho.
  cbn [fold_left].
  destruct (exec_score_bananas_mono o m Ho) as [H1 H2].
  destruct (IH (exec json_stringify json_parse o m) Hos) as [H3 H4]. lia.
Qed.

Lemma exec_counters_nonneg (o : op) (m : manager) :
  0 <= correctAnswers (sessionData m) -> 0 <= incorrectAnswers (sessionData m) ->
  0 <= correctAnswers (sessionData (exec json_stringify json_parse o m)) /\
  0 <= incorrectAnswers (sessionData (exec json_stringify json_parse o m)).
Proof.
  intros Hc Hi. destruct (resets_session o) eqn:Hr.
  - pose proof (exec_resets json_stringify json_parse o m Hr) as E. unfold counters in E.
    injection E as -> -> _. lia.
  - destruct (is_record_answer o) eqn:Ha.
    + destruct o; try discriminate. cbn [exec].
      destruct (recordAnswer_counters isCorrect m) as [_ [C I]]. rewrite C, I.
      destruct isCorrect; lia.
    + pose proof (exec_other_counters json_stringify json_parse o m Hr Ha) as E.
      unfold counters in E. injection E as -> -> _. lia.
Qed.

End Ops.

Lemma calculateAccuracy_range (m : manager) :
  0 <= correctAnswers (sessionData m) <= totalAnswers (sessionData m) ->
  (0 <= calculateAccuracy m <= 100)%Q.
Proof.
  intros [H0 H1]. unfold calculateAccuracy.
  destruct (Z.eqb_spec (totalAnswers (sessionData m)) 0) as [_|Hne];
    [split; discriminate|].
  destruct (totalAnswers (sessionData m)) as [|t|t] eqn:Et; [contradiction| |lia].
  destruct (correctAnswers (sessionData m)) as [|c|c]; [| |lia];
    unfold Qle, Qdiv, Qmult, Qinv, inject_Z; cbn; split; nia.
Qed.

Lemma Qle_bool_up (t a b : Q) :
  Qle_bool t a = true -> (a <= b)%Q -> Qle_bool t b = true.
Proof.
  intros H Hab. apply Qle_bool_iff in H. apply Qle_bool_iff. eapply Qle_trans; eassumption.
Qed.

Lemma calculateStars_range (m : manager) : 0 <= calculateStars m <= 3.
Proof.
  unfold calculateStars.
  destruct (Qle_bool 95 _); [lia|]. destruct (Qle_bool 80 _); [lia|].
  destruct (Qle_bool 60 _); lia.
Qed.

(** X23: a higher accuracy never earns fewer stars. *)
Theorem calculateStars_monotone (m1 m2 : manager) :
  (calculateAccuracy m1 <= calculateAccuracy m2)%Q ->
  calculateStars m1 <= calculateStars m2.
Proof.
  intros H. pose proof (calculateStars_range m2) as R2. unfold calculateStars in *.
  destruct (Qle_bool 95 (calculateAccuracy m1)) eqn:E1;
    [rewrite (Qle_bool_up _ _ _ E1 H); lia|].
  destruct (Qle_bool 80 (calculateAccuracy m1)) eqn:E2.
  { rewrite (Qle_bool_up _ _ _ E2 H). destruct (Qle_bool 95 (calculateAccuracy m2)); lia. }
  destruct (Qle_bool 60 (calculateAccuracy m1)) eqn:E3.
  { rewrite (Qle_bool_up _ _ _ E3 H).
    destruct (Qle_bool 95 (calculateAccuracy m2)); [lia|].
    destruct (Qle_bool 80 (calculateAccuracy m2)); lia. }
  destruct (Qle_bool 95 (calculateAccuracy m2)); [lia|].
  destruct (Qle_bool 80 (calculateAccuracy m2)); [lia|].
  destruct (Qle_bool 60 (calculateAccuracy m2)); lia.
Qed.

(** X24: after any calls on a new manager, the accuracy lies in [[0, 100]]. *)
Theorem accuracy_range_reachable (json_stringify : stored_data -> string)
    (json_parse : string -> option parsed) (os : list op) (now : Z) (rnd : string)
    (st : option string) :
  (0 <= calculateAccuracy (exec_all json_stringify json_parse os (constructor now rnd st)) <= 100)%Q.
Proof.
  apply calculateAccuracy_range.
  assert (Hinv : forall m,
    0 <= correctAnswers (sessionData m) -> 0 <= incorrectAnswers (sessionData m) ->
    totalAnswers (sessionData m) = correctAnswers (sessionData m) + incorrectAnswers (sessionData m) ->
    let m' := exec_all json_stringify json_parse os m in
    0 <= correctAnswers (sessionData m') /\ 0 <= incorrectAnswers (sessionData m') /\
    totalAnswers (sessionData m') = correctAnswers (sessionData m') + incorrectAnswers (sessionData m')).
  { unfold exec_all. induction os as [|o os IH]; intros m Hc Hi Ht; cbn [fold_left]; [auto|].
    destruct (exec_counters_nonneg json_stringify json_parse o m Hc Hi) as [Hc' Hi'].
    apply IH; [exact Hc'|exact Hi'|]. apply exec_invariant, Ht. }
  destruct (Hinv (constructor now rnd st)) as [Hc [Hi Ht]]; cbn; try lia.
Qed.


(** X22 on a session with a refused negative score. *)
Lemma score_bananas_monotone_witness :
  forallb (fun o => negb (resets_session o))
    [IncrementScore 100; AddBananas 1; IncrementScore (-5); NextQuestion] = true /\
  score (sessionData (startSession "easy" 5 1 (constructor 0 "abc" None)))
    <= score (sessionData (exec_all (fun _ => "{}") (fun _ => None)
         [IncrementScore 100; AddBananas 1; IncrementScore (-5); NextQuestion]
         (startSession "easy" 5 1 (constructor 0 "abc" None)))).
Proof.
  assert (H : forallb (fun o => negb (resets_session o))
    [IncrementScore 100; AddBananas 1; IncrementScore (-5); NextQuestion] = true) by reflexivity.
  split; [exact H|].
  exact (proj1 (score_bananas_monotone (fun _ => "{}") (fun _ => None) _
                  (startSession "easy" 5 1 (constructor 0 "abc" None)) H)).
Defined.

(** X23 at half and at all answers correct. *)
Lemma calculateStars_monotone_witness :
  (calculateAccuracy (recordAnswer false (recordAnswer true (constructor 0 "abc" None)))
   <= calculateAccuracy (recordAnswer true (recordAnswer true (constructor 0 "abc" None))))%Q /\
  calculateStars (recordAnswer false (recordAnswer true (constructor 0 "abc" None)))
   <= calculateStars (recordAnswer true (recordAnswer true (constructor 0 "abc" None))).
Proof.
  assert (H : (calculateAccuracy (recordAnswer false (recordAnswer true (constructor 0 "abc" None)))
   <= calculateAccuracy (recordAnswer true (recordAnswer true (constructor 0 "abc" None))))%Q)
    by (apply Qle_bool_iff; vm_compute; reflexivity).
  split; [exact H|exact (calculateStars_monotone _ _ H)].
Defined.

End SessionFacts.

(** * Properties of the scene's progress calls *)
Module SceneFacts.
Import ProgressManager GameScene.


Lemma scene_step_counts (m : manager) (ev : scene_event) :
  score (sessionData (scene_step m ev))
    = score (sessionData m) + SCORING_CORRECT_ANSWER * count_correct [ev] /\
  correctAnswers (sessionData (scene_step m ev)) = correctAnswers (sessionData m) + count_correct [ev] /\
  totalAnswers (sessionData (scene_step m ev)) = totalAnswers (sessionData m) + count_feedback [ev] /\
  bananasCollected (sessionData (scene_step m ev))
    = bananasCollected (sessionData m) + count_bananas [ev].
Proof. destruct ev as [[|]|]; cbn; repeat split; lia. Qed.

Lemma count_cons (f : list scene_event -> Z) (ev : scene_event) (evs : list scene_event) :
  f = count_correct \/ f = count_feedback \/ f = count_bananas ->
  f (ev :: evs) = f [ev] + f evs.
Proof.
  intros [-> | [-> | ->]]; unfold count_correct, count_feedback, count_bananas;
    cbn [filter]; destruct ev as [[|]|]; cbn [length]; lia.
Qed.

Lemma scene_run_counts (evs : list scene_event) (m : manager) :
  score (sessionData (scene_run evs m))
    = score (sessionData m) + SCORING_CORRECT_ANSWER * count_correct evs /\
  correctAnswers (sessionData (scene_run evs m)) = correctAnswers (sessionData m) + count_correct evs /\
  totalAnswers (sessionData (scene_run evs m)) = totalAnswers (sessionData m) + count_feedback evs /\
  bananasCollected (sessionData (scene_run evs m))
    = bananasCollected (sessionData m) + count_bananas evs.
Proof.
  unfold scene_run. revert m; induction evs as [|ev evs IH]; intros m; [cbn; lia|].
  cbn [fold_left]. destruct (IH (scene_step m ev)) as [A [B [C D]]].
  destruct (scene_step_counts m ev) as [A' [B' [C' D']]].
  rewrite (count_cons count_correct), (count_cons count_feedback), (count_cons count_bananas) by tauto.
  rewrite A, B, C, D, A', B', C', D'. repeat split; lia.
Qed.

(** X25: from the start of a level, through the scene's feedback and
    banana callbacks, the score is [SCORING.CORRECT_ANSWER] per correct
    answer, the correct and total answer counts are the correct and all
    feedbacks, and the banana count is the number of bananas collected. *)
Theorem scene_score_invariant (d : string) (tq now : Z) (m : manager) (evs : list scene_event) :
  let m' := scene_run evs (startSession d tq now m) in
  score (sessionData m') = SCORING_CORRECT_ANSWER * correctAnswers (sessionData m') /\
  correctAnswers (sessionData m') = count_correct evs /\
  totalAnswers (sessionData m') = count_feedback evs /\
  bananasCollected (sessionData m') = count_bananas evs.
Proof.
  cbn zeta. destruct (scene_run_counts evs (startSession d tq now m)) as [A [B [C D]]].
  rewrite A, B, C, D. cbn. repeat split; lia.
Qed.


End SceneFacts.
